(** * BobaBot core agent: a shallow embedding of [agent.py]

    The agent is a Python class whose methods print to the console, shell
    out to an external tool client and read the clock.  Every method is
    embedded as a function in a small state-and-exception monad [M] over
    a [world] that records what was printed and which processes were
    spawned.  Library functions whose code is not part of the repository
    ([json.dumps], [json.loads], [subprocess.run], [datetime.now],
    [uuid.uuid4]) are the fields of the class [Env].

    Numbers.  A Python [int] is a [Z].  A Python [float] is an IEEE 754
    binary64 number: a finite float is represented by the rational it
    denotes, the infinities and NaN by [VNonFinite].  The sign of a zero
    is not kept.  Float arithmetic rounds to the nearest float, ties to
    even, as the standard library specifies it in [SpecFloat].

    Strings.  A [string] is a sequence of code points below 256.

    Exceptions.  Only subclasses of [Exception] are modelled, so a handler
    [except Exception] catches everything that [Raise] carries. *)

From Stdlib Require Import QArith Qround SpecFloat.
From stdpp Require Import base strings gmap list pretty.

Set Warnings "-register-all".
Local Open Scope Z_scope.
Local Open Scope string_scope.

(** ** Python values *)

(** A float that is not finite: [inf], [-inf] or [nan]. *)
Inductive nonfinite : Type :=
  | PosInf
  | NegInf
  | NotANumber.

Inductive value : Type :=
  | VNone
  | VBool (b : bool)
  | VInt (z : Z)
  | VFloat (q : Q)
  | VNonFinite (x : nonfinite)
  | VStr (s : string)
  | VList (l : list value)
  | VDict (d : gmap string value).

Abbreviation dict := (gmap string value).

(** [type(v).__name__] *)
Definition type_name (v : value) : string :=
  match v with
  | VNone => "NoneType"
  | VBool _ => "bool"
  | VInt _ => "int"
  | VFloat _ => "float"
  | VNonFinite _ => "float"
  | VStr _ => "str"
  | VList _ => "list"
  | VDict _ => "dict"
  end.

(** The numeric tower, finite part: [bool] is a subclass of [int]. *)
Inductive num : Type :=
  | NInt (z : Z)
  | NFloat (q : Q).

Definition as_num (v : value) : option num :=
  match v with
  | VBool b => Some (NInt (Z.b2z b))
  | VInt z => Some (NInt z)
  | VFloat q => Some (NFloat q)
  | _ => None
  end.

Definition of_num (n : num) : value :=
  match n with
  | NInt z => VInt z
  | NFloat q => VFloat q
  end.

(** The rational a number denotes. *)
Definition num_Q (n : num) : Q :=
  match n with
  | NInt z => inject_Z z
  | NFloat q => q
  end.

(** [int(x)] on a number truncates toward zero. *)
Definition num_int (a : num) : Z :=
  match a with
  | NInt z => z
  | NFloat q => Z.quot (Qnum q) (Z.pos (Qden q))
  end.

(** Comparison of an int or float with an int or float is exact. *)
Definition num_ltb (a b : num) : bool :=
  negb (Qle_bool (num_Q b) (num_Q a)).

(** Every number: the finite ones and the floats that are not finite. *)
Inductive number : Type :=
  | Finite (n : num)
  | NonFinite (x : nonfinite).

Definition as_number (v : value) : option number :=
  match as_num v with
  | Some n => Some (Finite n)
  | None =>
      match v with
      | VNonFinite x => Some (NonFinite x)
      | _ => None
      end
  end.

Definition of_number (n : number) : value :=
  match n with
  | Finite n => of_num n
  | NonFinite x => VNonFinite x
  end.

(** ** Exceptions *)

Record exn : Type := Exn {
  exn_class : string;
  exn_str : string     (* str(e) *)
}.

Definition KeyError (key : string) : exn :=
  Exn "KeyError" ("'" ++ key ++ "'").

Definition AttributeError (v : value) (attr : string) : exn :=
  Exn "AttributeError"
      ("'" ++ type_name v ++ "' object has no attribute '" ++ attr ++ "'").

Definition TypeError (msg : string) : exn := Exn "TypeError" msg.

Definition ZeroDivisionError (msg : string) : exn := Exn "ZeroDivisionError" msg.

Definition OverflowError (msg : string) : exn := Exn "OverflowError" msg.

Definition ValueError (msg : string) : exn := Exn "ValueError" msg.

Inductive result (A : Type) : Type :=
  | Ok (a : A)
  | Raise (e : exn).
Arguments Ok {A} a.
Arguments Raise {A} e.

Definition result_map {A B} (f : A -> B) (r : result A) : result B :=
  match r with
  | Ok a => Ok (f a)
  | Raise e => Raise e
  end.

(** ** Float arithmetic

    binary64 has a mantissa of 53 bits and its infinities have the
    exponent 1024.  [SFadd] and [SFdiv] are the addition and the division
    of IEEE 754: the exact result, rounded to the nearest float, ties to
    even. *)

Definition prec : Z := 53.
Definition emax : Z := 1024.

(** An integer as a floating-point number that is not rounded yet. *)
Definition exact_int (z : Z) : spec_float :=
  match z with
  | Z0 => S754_zero false
  | Zpos m => S754_finite false m 0
  | Zneg m => S754_finite true m 0
  end.

(** The float nearest to [n / d], for [d <> 0]; an infinity when it is
    beyond the largest float. *)
Definition nearest_float (n d : Z) : spec_float :=
  SFdiv prec emax (exact_int n) (exact_int d).

(** The float that denotes the rational [q]. *)
Definition binary64 (q : Q) : spec_float :=
  nearest_float (Qnum q) (Z.pos (Qden q)).

(** The rational that the finite float [(-1)^s * m * 2^e] denotes. *)
Definition float_Q (s : bool) (m : positive) (e : Z) : Q :=
  let mantissa := cond_Zopp s (Z.pos m) in
  Qred match e with
       | Z0 => inject_Z mantissa
       | Zpos p => inject_Z (mantissa * Z.pow_pos 2 p)
       | Zneg p => mantissa # Pos.pow 2 p
       end.

Definition number_of_float (x : spec_float) : number :=
  match x with
  | S754_zero _ => Finite (NFloat 0)
  | S754_finite s m e => Finite (NFloat (float_Q s m e))
  | S754_infinity s => NonFinite (if s then NegInf else PosInf)
  | S754_nan => NonFinite NotANumber
  end.

(** A number as the operand of a float operation: an int is converted
    first, which fails beyond the range of a float. *)
Definition float_operand (a : number) : result spec_float :=
  match a with
  | Finite (NInt z) =>
      match nearest_float z 1 with
      | S754_infinity _ => Raise (OverflowError "int too large to convert to float")
      | x => Ok x
      end
  | Finite (NFloat q) => Ok (binary64 q)
  | NonFinite PosInf => Ok (S754_infinity false)
  | NonFinite NegInf => Ok (S754_infinity true)
  | NonFinite NotANumber => Ok S754_nan
  end.

(** [a + b] on numbers: exact on two ints, a float addition otherwise. *)
Definition number_add (a b : number) : result number :=
  match a, b with
  | Finite (NInt x), Finite (NInt y) => Ok (Finite (NInt (x + y)))
  | _, _ =>
      match float_operand a with
      | Raise e => Raise e
      | Ok x =>
          match float_operand b with
          | Raise e => Raise e
          | Ok y => Ok (number_of_float (SFadd prec emax x y))
          end
      end
  end.

(** [a / b] on numbers, true division: the quotient of two ints is the
    float nearest to it, and an error when that is beyond the largest
    float; otherwise a float division. *)
Definition number_truediv (a b : number) : result number :=
  match a, b with
  | Finite (NInt x), Finite (NInt y) =>
      if decide (y = 0) then Raise (ZeroDivisionError "division by zero")
      else
        match nearest_float x y with
        | S754_infinity _ =>
            Raise (OverflowError "integer division result too large for a float")
        | q => Ok (number_of_float q)
        end
  | _, _ =>
      match float_operand a with
      | Raise e => Raise e
      | Ok x =>
          match float_operand b with
          | Raise e => Raise e
          | Ok (S754_zero _) => Raise (ZeroDivisionError "float division by zero")
          | Ok y => Ok (number_of_float (SFdiv prec emax x y))
          end
      end
  end.

(** ** The world outside the interpreter *)

Record CompletedProcess : Type := {
  returncode : Z;
  stdout : string;
  stderr : string
}.

Record world : Type := World {
  printed : list string;          (* lines written by print, oldest first *)
  spawned : list (list string);   (* argv of each subprocess.run so far *)
  clock_reads : nat;              (* calls of datetime.now() so far *)
  uuids_drawn : nat               (* calls of uuid.uuid4() so far *)
}.

Class Env : Type := {
  (* json.dumps(v) *)
  json_dumps : value -> result string;
  (* json.loads(s) *)
  json_loads : string -> result value;
  (* the n-th subprocess.run(argv, capture_output, text, timeout=30) *)
  subprocess_run : nat -> list string -> result CompletedProcess;
  (* the n-th datetime.now().isoformat() *)
  now_isoformat : nat -> string;
  (* the n-th uuid.uuid4().int, a 128-bit integer *)
  uuid4_int : nat -> N;
  (* str(v) of a finite float, list or dict *)
  str_compound : value -> string;
  (* a + b where a is not a number *)
  add_objects : value -> value -> result value;
  (* a += b where a is not a number *)
  iadd_objects : value -> value -> result value;
  (* int(v) where v is not a number *)
  int_object : value -> result Z
}.

(** ** The monad: state passing over [world], with exceptions *)

Definition M (A : Type) : Type := world -> result A * world.

Definition ret {A} (a : A) : M A := fun w => (Ok a, w).

Definition raise {A} (e : exn) : M A := fun w => (Raise e, w).

Definition bind {A B} (m : M A) (k : A -> M B) : M B :=
  fun w =>
    match m w with
    | (Ok a, w') => k a w'
    | (Raise e, w') => (Raise e, w')
    end.

(** [try: body except Exception as e: handler(e)] *)
Definition try_except {A} (body : M A) (handler : exn -> M A) : M A :=
  fun w =>
    match body w with
    | (Ok a, w') => (Ok a, w')
    | (Raise e, w') => handler e w'
    end.

Definition lift {A} (r : result A) : M A := fun w => (r, w).

Notation "x <- m ;; k" := (bind m (fun x => k))
  (at level 100, m at next level, right associativity).
Notation "m ;;; k" := (bind m (fun _ => k))
  (at level 100, right associativity).

(** [for x in l: s = body(x, s)] *)
Fixpoint for_each {A S} (l : list A) (body : A -> S -> M S) (s : S) : M S :=
  match l with
  | [] => ret s
  | x :: l' => s' <- body x s ;; for_each l' body s'
  end.

(** ** Statements that update an object in place

    A dict that a method received from elsewhere is one object: what the
    method has stored in it stays stored when the method raises.  [Upd A]
    threads the state of that object next to the world, and an outcome
    comes with the object as the statements left it. *)

Definition Upd (A : Type) : Type := dict -> world -> result A * dict * world.

Definition upd_ret {A} (a : A) : Upd A := fun obj w => (Ok a, obj, w).

Definition upd_bind {A B} (m : Upd A) (k : A -> Upd B) : Upd B :=
  fun obj w =>
    match m obj w with
    | (Ok a, obj', w') => k a obj' w'
    | (Raise e, obj', w') => (Raise e, obj', w')
    end.

(** A statement that does not touch the object. *)
Definition upd_lift {A} (m : M A) : Upd A :=
  fun obj w => let (r, w') := m w in (r, obj, w').

(** The object as it is now. *)
Definition upd_read : Upd dict := fun obj w => (Ok obj, obj, w).

(** [obj[key] = v] *)
Definition upd_setitem (key : string) (v : value) : Upd unit :=
  fun obj w => (Ok tt, <[key := v]> obj, w).

Notation "x <~ m ;; k" := (upd_bind m (fun x => k))
  (at level 100, m at next level, right associativity).
Notation "m ;;~ k" := (upd_bind m (fun _ => k))
  (at level 100, right associativity).

(** ** Built-ins *)

Definition nl : string := String (Ascii.ascii_of_nat 10) "".

(** The world after one more line is printed. *)
Definition with_line (w : world) (line : string) : world :=
  World (printed w ++ [line]) (spawned w) (clock_reads w) (uuids_drawn w).

(** [print(line)] *)
Definition print (line : string) : M unit :=
  fun w => (Ok tt, with_line w line).

Section Builtins.
Context {E : Env}.

(** [str(v)], which is also what an f-string field [{v}] renders. *)
Definition py_str (v : value) : string :=
  match v with
  | VNone => "None"
  | VBool true => "True"
  | VBool false => "False"
  | VInt z => pretty z
  | VNonFinite PosInf => "inf"
  | VNonFinite NegInf => "-inf"
  | VNonFinite NotANumber => "nan"
  | VStr s => s
  | _ => str_compound v
  end.

(** [d[key]] *)
Definition getitem (d : dict) (key : string) : M value :=
  match d !! key with
  | Some v => ret v
  | None => raise (KeyError key)
  end.

(** [d.get(key, dflt)] on a dict *)
Definition dict_get (d : dict) (key : string) (dflt : value) : value :=
  default dflt (d !! key).

(** [v.get(key, dflt)] on any object: only a dict has the method. *)
Definition get (v : value) (key : string) (dflt : value) : M value :=
  match v with
  | VDict d => ret (dict_get d key dflt)
  | _ => raise (AttributeError v "get")
  end.

(** The binary operator [op], which is [+] or [+=], where [objects] is
    what it does on a left operand that is not a number. *)
Definition py_add_with (op : string) (objects : value -> value -> result value)
    (a b : value) : M value :=
  match as_number a with
  | Some x =>
      match as_number b with
      | Some y => lift (result_map of_number (number_add x y))
      | None =>
          raise (TypeError ("unsupported operand type(s) for " ++ op ++ ": '"
                            ++ type_name a ++ "' and '" ++ type_name b ++ "'"))
      end
  | None => lift (objects a b)
  end.

(** [a + b] *)
Definition py_add : value -> value -> M value := py_add_with "+" add_objects.

(** [a += b] on a name or an item *)
Definition py_iadd : value -> value -> M value := py_add_with "+=" iadd_objects.

(** [d[key] += rhs] on a dict [d] that the method itself created and
    that nothing else refers to: the old item is loaded before the
    right-hand side is evaluated, and the name is bound to the updated
    dict. *)
Definition iadd_item (d : dict) (key : string) (rhs : M value) : M dict :=
  old <- getitem d key ;;
  v <- rhs ;;
  new <- py_iadd old v ;;
  ret (<[key := new]> d).

(** [obj[key] += rhs] on an object updated in place. *)
Definition upd_iadd_item (key : string) (rhs : M value) : Upd unit :=
  obj <~ upd_read ;;
  old <~ upd_lift (getitem obj key) ;;
  v <~ upd_lift rhs ;;
  new <~ upd_lift (py_iadd old v) ;;
  upd_setitem key new.

(** [a < b] where [b] is a finite number *)
Definition py_lt (a : value) (b : num) : M bool :=
  match as_number a with
  | Some (Finite x) => ret (num_ltb x b)
  | Some (NonFinite NegInf) => ret true
  | Some (NonFinite _) => ret false
  | None =>
      raise (TypeError ("'<' not supported between instances of '" ++ type_name a
                        ++ "' and '" ++ type_name (of_num b) ++ "'"))
  end.

(** [a > b] where [b] is a finite number *)
Definition py_gt (a : value) (b : num) : M bool :=
  match as_number a with
  | Some (Finite x) => ret (num_ltb b x)
  | Some (NonFinite PosInf) => ret true
  | Some (NonFinite _) => ret false
  | None =>
      raise (TypeError ("'>' not supported between instances of '" ++ type_name a
                        ++ "' and '" ++ type_name (of_num b) ++ "'"))
  end.

(** [a / b], true division *)
Definition py_truediv (a b : value) : M value :=
  match as_number a, as_number b with
  | Some x, Some y => lift (result_map of_number (number_truediv x y))
  | _, _ =>
      raise (TypeError ("unsupported operand type(s) for /: '" ++ type_name a
                        ++ "' and '" ++ type_name b ++ "'"))
  end.

(** [v in [m1, m2, ...]] for a list of ints: membership by [==]. *)
Definition py_in_ints (v : value) (l : list Z) : bool :=
  match as_num v with
  | Some x => existsb (fun m => Qeq_bool (num_Q x) (inject_Z m)) l
  | None => false
  end.

(** [int(v)] *)
Definition py_int (v : value) : M Z :=
  match as_number v with
  | Some (Finite x) => ret (num_int x)
  | Some (NonFinite NotANumber) =>
      raise (ValueError "cannot convert float NaN to integer")
  | Some (NonFinite _) =>
      raise (OverflowError "cannot convert float infinity to integer")
  | None => lift (int_object v)
  end.

(** [datetime.now().isoformat()] *)
Definition datetime_now_isoformat : M string :=
  fun w => (Ok (now_isoformat (clock_reads w)),
            World (printed w) (spawned w) (S (clock_reads w)) (uuids_drawn w)).

(** [subprocess.run(argv, capture_output=True, text=True, timeout=30)] *)
Definition run (argv : list string) : M CompletedProcess :=
  fun w => (subprocess_run (length (spawned w)) argv,
            World (printed w) (spawned w ++ [argv]) (clock_reads w) (uuids_drawn w)).

End Builtins.

(** ** String methods *)

(** [c.isspace()] for a code point below 256: the characters that
    [str.strip()] removes. *)
Definition is_space (c : Ascii.ascii) : bool :=
  let n := Ascii.N_of_ascii c in
  (((9 <=? n) && (n <=? 13)) || ((28 <=? n) && (n <=? 32))
   || (n =? 133) || (n =? 160))%N.

Fixpoint lstrip (s : string) : string :=
  match s with
  | EmptyString => EmptyString
  | String c s' => if is_space c then lstrip s' else s
  end.

Fixpoint rstrip (s : string) : string :=
  match s with
  | EmptyString => EmptyString
  | String c s' =>
      match rstrip s' with
      | EmptyString => if is_space c then EmptyString else String c EmptyString
      | r => String c r
      end
  end.

(** [s.strip()] *)
Definition strip (s : string) : string := rstrip (lstrip s).

(** [s.split(sep)] for a separator of one character *)
Fixpoint split (sep : Ascii.ascii) (s : string) : list string :=
  match s with
  | EmptyString => [EmptyString]
  | String c s' =>
      if decide (c = sep) then EmptyString :: split sep s'
      else match split sep s' with
           | h :: t => String c h :: t
           | [] => [String c EmptyString]
           end
  end.

(** A string is truthy when it is not empty. *)
Definition truthy_str (s : string) : bool :=
  match s with
  | EmptyString => false
  | String _ _ => true
  end.

(** [s[:n]] *)
Fixpoint slice_to (n : nat) (s : string) : string :=
  match n, s with
  | S n', String c s' => String c (slice_to n' s')
  | _, _ => EmptyString
  end.

Definition upper_char (c : Ascii.ascii) : Ascii.ascii :=
  let n := Ascii.N_of_ascii c in
  if ((97 <=? n) && (n <=? 122))%N then Ascii.ascii_of_N (n - 32) else c.

(** [s.upper()] on an ASCII string; the agent only applies it to
    hexadecimal digits. *)
Fixpoint upper (s : string) : string :=
  match s with
  | EmptyString => EmptyString
  | String c s' => String (upper_char c) (upper s')
  end.

Definition hex_digit (d : N) : Ascii.ascii :=
  if (d <? 10)%N then Ascii.ascii_of_N (48 + d) else Ascii.ascii_of_N (87 + d).

(** The [width] low hexadecimal digits of [n], most significant first,
    in front of [acc]. *)
Fixpoint hex_fixed (width : nat) (n : N) (acc : string) : string :=
  match width with
  | O => acc
  | S w => hex_fixed w (n / 16)%N (String (hex_digit (n mod 16)%N) acc)
  end.

(** [uuid.UUID(int=n).hex], that is ['%032x' % n] *)
Definition uuid_hex (n : N) : string := hex_fixed 32 n EmptyString.

(** ** The agent *)

Record BobaBotAgent : Type := {
  version : string;
  mcp_server : string;
  customers_db : list dict;
  campaigns : list dict
}.

(** [BobaBotAgent()] *)
Definition __init__ : BobaBotAgent :=
  {| version := "1.0.0-alpha";
     mcp_server := "zapier";
     customers_db := [];
     campaigns := [] |}.

Section Agent.
Context {E : Env}.
Variable self : BobaBotAgent.

(** *** MCP integration helpers *)

(** The command line of one bridge call. *)
Definition mcp_argv (tool params_json : string) : list string :=
  ["manus-mcp-cli"; "tool"; "call"; tool; "--server"; mcp_server self;
   "--input"; params_json].

(** [{"error": msg}] *)
Definition error_result (msg : string) : value := VDict {[ "error" := VStr msg ]}.

Definition _call_mcp_tool (tool : string) (params : dict) : M value :=
  try_except
    (params_json <- lift (json_dumps (VDict params)) ;;
     result <- run (mcp_argv tool params_json) ;;
     if decide (returncode result = 0) then
       lift (json_loads (stdout result))
     else
       (print ("MCP tool error: " ++ stderr result) ;;;
        ret (error_result (stderr result))))
    (fun e =>
       print ("Exception calling MCP tool: " ++ exn_str e) ;;;
       ret (error_result (exn_str e))).

(** The f-string that [_generate_personalized_message] builds, where
    [name] is [customer['name']]. *)
Definition personalized_prompt (customer : dict) (campaign_type : string)
    (name : value) : string :=
  nl ++ "        Write a friendly, personalized marketing message in Vietnamese for "
     ++ py_str name ++ "." ++ nl
  ++ "        Campaign type: " ++ campaign_type ++ nl
  ++ "        Customer details:" ++ nl
  ++ "        - Favorite drink: "
     ++ py_str (dict_get customer "favorite_drink" (VStr "unknown")) ++ nl
  ++ "        - Total visits: "
     ++ py_str (dict_get customer "total_visits" (VInt 0)) ++ nl
  ++ "        - Last visit: "
     ++ py_str (dict_get customer "last_visit" (VStr "unknown")) ++ nl
  ++ "        " ++ nl
  ++ "        Keep it warm, casual, and under 100 words." ++ nl
  ++ "        Include a special 15% discount offer." ++ nl
  ++ "        ".

Definition personalized_params (customer : dict) (campaign_type : string)
    (name : value) : dict :=
  {[ "prompt" := VStr (personalized_prompt customer campaign_type name);
     "instructions" := VStr "Generate a personalized marketing message" ]}.

Definition _generate_personalized_message (customer : dict) (campaign_type : string)
  : M value :=
  name <- getitem customer "name" ;;
  result <- _call_mcp_tool "google_vertex_ai_send_prompt"
              (personalized_params customer campaign_type name) ;;
  get result "text" (VStr "We miss you! Come back for 15% off!").

(** The f-string that [_get_ai_recommendations] builds. *)
Definition recommendation_prompt (customer : dict) : string :=
  nl ++ "        Based on this customer's purchase history, recommend 2-3 new drinks they might enjoy:" ++ nl
  ++ "        - Favorite drink: "
     ++ py_str (dict_get customer "favorite_drink" VNone) ++ nl
  ++ "        - Total visits: "
     ++ py_str (dict_get customer "total_visits" VNone) ++ nl
  ++ "        " ++ nl
  ++ "        Respond with just the drink names, one per line." ++ nl
  ++ "        ".

Definition recommendation_params (customer : dict) : dict :=
  {[ "prompt" := VStr (recommendation_prompt customer);
     "instructions" := VStr "Generate product recommendations" ]}.

(** [[r.strip() for r in text.strip().split(newline) if r.strip()]] *)
Definition recommendation_lines (text : string) : list string :=
  let recommendations := split (Ascii.ascii_of_nat 10) (strip text) in
  strip <$> filter (fun r => truthy_str (strip r) = true) recommendations.

Definition _get_ai_recommendations (customer : dict) : M (list string) :=
  result <- _call_mcp_tool "google_vertex_ai_send_prompt"
              (recommendation_params customer) ;;
  text <- get result "text" (VStr "") ;;
  match text with
  | VStr s => ret (recommendation_lines s)
  | _ => raise (AttributeError text "strip")
  end.

(** *** Data storage helpers *)

Definition _store_customer_in_sheets (customer : dict) : M unit :=
  name <- getitem customer "name" ;;
  _call_mcp_tool "google_sheets_create_spreadsheet_row"
    {[ "instructions" :=
         VStr ("Add new customer " ++ py_str name ++ " to the Customers sheet");
       "spreadsheet" := VStr "BobaBot Customer Database";
       "worksheet" := VStr "Customers" ]} ;;;
  ret tt.

Definition _update_customer_in_sheets (customer : dict) : M unit :=
  id <- getitem customer "id" ;;
  _call_mcp_tool "google_sheets_update_spreadsheet_row"
    {[ "instructions" := VStr ("Update customer " ++ py_str id ++ " with new data");
       "spreadsheet" := VStr "BobaBot Customer Database";
       "worksheet" := VStr "Customers" ]} ;;;
  ret tt.

Definition _store_report_in_sheets (report : dict) : M unit :=
  store_id <- getitem report "store_id" ;;
  _call_mcp_tool "google_sheets_create_spreadsheet_row"
    {[ "instructions" := VStr ("Add sales report for " ++ py_str store_id);
       "spreadsheet" := VStr "BobaBot Reports";
       "worksheet" := VStr "Sales Reports" ]} ;;;
  ret tt.

(** *** Utility methods *)

Definition _generate_customer_id : M string :=
  fun w =>
    (Ok ("CUST-" ++ upper (slice_to 8 (uuid_hex (uuid4_int (uuids_drawn w))))),
     World (printed w) (spawned w) (clock_reads w) (S (uuids_drawn w))).

Definition _get_customer (customer_id : string) : dict :=
  {[ "id" := VStr customer_id; "name" := VStr "Sample Customer" ]}.

Definition _get_inactive_customers (days : Z) : list dict := [].

Definition _get_birthday_customers : list dict := [].

Definition _get_recent_customers (days : Z) : list dict := [].

Definition _send_message (customer : dict) (message : value) : M unit :=
  name <- getitem customer "name" ;;
  print ("Sending to " ++ py_str name ++ ": " ++ py_str message).

Definition _send_welcome_message (customer : dict) : M unit :=
  name <- getitem customer "name" ;;
  let message :=
    "Welcome to Boba Club, " ++ py_str name ++ "! You've earned 100 points!" in
  _send_message customer (VStr message).

Definition _check_milestone_rewards (customer : dict) : M unit :=
  total_visits <- getitem customer "total_visits" ;;
  if py_in_ints total_visits [5; 10; 25; 50; 100] then
    name <- getitem customer "name" ;;
    total_visits <- getitem customer "total_visits" ;;
    print ("Milestone! " ++ py_str name ++ " reached " ++ py_str total_visits
           ++ " visits!")
  else ret tt.

Definition _get_sales_data (store_id period : string) : list dict := [].

Definition _calculate_top_items (sales_data : list dict) : list string :=
  ["Taro Milk Tea"; "Brown Sugar Boba"; "Mango Smoothie"].

Definition _calculate_peak_hours (sales_data : list dict) : list string :=
  ["2pm-4pm"; "7pm-9pm"].

Definition _calculate_loyalty_percentage (sales_data : list dict) : Q := 35.5%Q.

Definition _alert_manager (message : string) : M unit :=
  print ("ALERT: " ++ message).

Definition _generate_apology_email (feedback : string) : string :=
  "We're sorry for your experience. Please accept this free drink coupon.".

Definition _generate_birthday_message (customer offer : dict) : M string :=
  name <- getitem customer "name" ;;
  item <- getitem offer "item" ;;
  ret ("Happy Birthday " ++ py_str name ++ "! Enjoy a free " ++ py_str item
       ++ " on us!").

Definition _generate_recommendation_message (customer : dict)
    (recommendations : list string) : M string :=
  let items := String.concat ", " recommendations in
  name <- getitem customer "name" ;;
  ret ("Hi " ++ py_str name ++ "! Based on your taste, you might love: " ++ items).

(** *** Customer data management *)

Definition capture_customer (customer_data : dict) : M dict :=
  id <- _generate_customer_id ;;
  signup_date <- datetime_now_isoformat ;;
  let customer : dict :=
    {[ "id" := VStr id;
       "name" := dict_get customer_data "name" VNone;
       "phone" := dict_get customer_data "phone" VNone;
       "email" := dict_get customer_data "email" VNone;
       "favorite_drink" := dict_get customer_data "favorite_drink" VNone;
       "signup_date" := VStr signup_date;
       "total_visits" := VInt 0;
       "total_spent" := VFloat 0;
       "loyalty_points" := VInt 100;
       "last_visit" := VNone;
       "status" := VStr "active" ]} in
  _store_customer_in_sheets customer ;;;
  _send_welcome_message customer ;;;
  ret customer.

(** The statements of [track_purchase] after the first one.  They update
    the profile object that the first statement binds, in place, and
    return it. *)
Definition track_purchase_in_place (purchase_data : dict) : Upd dict :=
  upd_iadd_item "total_visits" (ret (VInt 1)) ;;~
  upd_iadd_item "total_spent" (getitem purchase_data "total_amount") ;;~
  last_visit <~ upd_lift datetime_now_isoformat ;;
  upd_setitem "last_visit" (VStr last_visit) ;;~
  total_amount <~ upd_lift (getitem purchase_data "total_amount") ;;
  points_earned <~ upd_lift (py_int total_amount) ;;
  upd_iadd_item "loyalty_points" (ret (VInt points_earned)) ;;~
  customer <~ upd_read ;;
  upd_lift (_update_customer_in_sheets customer) ;;~
  customer <~ upd_read ;;
  upd_lift (_check_milestone_rewards customer) ;;~
  upd_read.

(** The body of [track_purchase] after its first statement, as a function
    of the profile that statement binds: what the caller gets, the
    returned profile or the exception. *)
Definition track_purchase_body (customer purchase_data : dict) : M dict :=
  fun w =>
    let '(r, _, w') := track_purchase_in_place purchase_data customer w in (r, w').

Definition track_purchase (customer_id : string) (purchase_data : dict) : M dict :=
  let customer := _get_customer customer_id in
  track_purchase_body customer purchase_data.

(** *** Marketing automation *)

(** One iteration of the loop of [_run_we_miss_you_campaign].  The
    counter is the last statement of the [try] block, so [results] is
    unchanged whenever the handler runs. *)
Definition _run_we_miss_you_campaign_step (customer results : dict) : M dict :=
  try_except
    (message <- _generate_personalized_message customer "we_miss_you" ;;
     _send_message customer message ;;;
     iadd_item results "messages_sent" (ret (VInt 1)))
    (fun e =>
       name <- getitem customer "name" ;;
       print ("Error sending to " ++ py_str name ++ ": " ++ exn_str e) ;;;
       iadd_item results "errors" (ret (VInt 1))).

(** The body of [_run_we_miss_you_campaign] after its first statement, as
    a function of the customers that statement binds. *)
Definition _run_we_miss_you_campaign_body (inactive_customers : list dict) : M dict :=
  let results : dict :=
    {[ "campaign" := VStr "We Miss You";
       "target_count" := VInt (Z.of_nat (length inactive_customers));
       "messages_sent" := VInt 0;
       "errors" := VInt 0 ]} in
  for_each inactive_customers _run_we_miss_you_campaign_step results.

Definition _run_we_miss_you_campaign : M dict :=
  let inactive_customers := _get_inactive_customers 30 in
  _run_we_miss_you_campaign_body inactive_customers.

(** One iteration of the loop of [_run_birthday_campaign]. *)
Definition _run_birthday_campaign_step (customer results : dict) : M dict :=
  let offer : dict :=
    {[ "type" := VStr "free_drink";
       "item" := dict_get customer "favorite_drink" (VStr "Any drink");
       "expiry_days" := VInt 7 ]} in
  message <- _generate_birthday_message customer offer ;;
  _send_message customer (VStr message) ;;;
  iadd_item results "rewards_sent" (ret (VInt 1)).

Definition _run_birthday_campaign_body (birthday_customers : list dict) : M dict :=
  let results : dict :=
    {[ "campaign" := VStr "Birthday Rewards";
       "target_count" := VInt (Z.of_nat (length birthday_customers));
       "rewards_sent" := VInt 0 ]} in
  for_each birthday_customers _run_birthday_campaign_step results.

Definition _run_birthday_campaign : M dict :=
  let birthday_customers := _get_birthday_customers in
  _run_birthday_campaign_body birthday_customers.

(** One iteration of the loop of [_run_recommendation_campaign]. *)
Definition _run_recommendation_campaign_step (customer results : dict) : M dict :=
  recommendations <- _get_ai_recommendations customer ;;
  match recommendations with
  | _ :: _ =>
      message <- _generate_recommendation_message customer recommendations ;;
      _send_message customer (VStr message) ;;;
      iadd_item results "recommendations_sent" (ret (VInt 1))
  | [] => ret results
  end.

Definition _run_recommendation_campaign_body (recent_customers : list dict) : M dict :=
  let results : dict :=
    {[ "campaign" := VStr "Personalized Recommendations";
       "target_count" := VInt (Z.of_nat (length recent_customers));
       "recommendations_sent" := VInt 0 ]} in
  for_each recent_customers _run_recommendation_campaign_step results.

Definition _run_recommendation_campaign : M dict :=
  let recent_customers := _get_recent_customers 7 in
  _run_recommendation_campaign_body recent_customers.

Definition run_marketing_campaigns : M (list dict) :=
  r1 <- _run_we_miss_you_campaign ;;
  r2 <- _run_birthday_campaign ;;
  r3 <- _run_recommendation_campaign ;;
  ret [r1; r2; r3].

(** *** Operations intelligence *)

(** [sum(sale["amount"] for sale in sales_data)]: the running total
    starts at the int 0 and every amount is added to it with [+], left
    to right.  (From version 3.12 on, CPython compensates the rounding
    of the float additions inside [sum]; on integers the versions
    agree.) *)
Definition sum_amounts (sales_data : list dict) : M value :=
  for_each sales_data
    (fun sale total => amount <- getitem sale "amount" ;; py_add total amount)
    (VInt 0).

(** The body of [generate_sales_report] after its first statement, as a
    function of the transactions that statement binds. *)
Definition generate_sales_report_body (sales_data : list dict)
    (store_id period : string) : M dict :=
  generated_at <- datetime_now_isoformat ;;
  total_revenue <- sum_amounts sales_data ;;
  let total_transactions := VInt (Z.of_nat (length sales_data)) in
  let metrics (average_transaction : value) : dict :=
    {[ "total_revenue" := total_revenue;
       "total_transactions" := total_transactions;
       "average_transaction" := average_transaction;
       "top_selling_items" := VList (VStr <$> _calculate_top_items sales_data);
       "peak_hours" := VList (VStr <$> _calculate_peak_hours sales_data);
       "loyalty_member_percentage" :=
         VFloat (_calculate_loyalty_percentage sales_data) ]} in
  let report (average_transaction : value) : dict :=
    {[ "store_id" := VStr store_id;
       "period" := VStr period;
       "generated_at" := VStr generated_at;
       "metrics" := VDict (metrics average_transaction) ]} in
  positive <- py_gt total_transactions (NInt 0) ;;
  average_transaction <-
    (if positive : bool then py_truediv total_revenue total_transactions
     else ret (VInt 0)) ;;
  _store_report_in_sheets (report average_transaction) ;;;
  ret (report average_transaction).

Definition generate_sales_report (store_id period : string) : M dict :=
  let sales_data := _get_sales_data store_id period in
  generate_sales_report_body sales_data store_id period.

Definition sentiment_params (feedback_text : string) : dict :=
  {[ "text" := VStr feedback_text;
     "instructions" := VStr "Analyze the sentiment of this customer feedback" ]}.

Definition analyze_customer_sentiment (feedback_text : string) : M dict :=
  sentiment <- _call_mcp_tool "google_vertex_ai_analyze_text_sentiment"
                 (sentiment_params feedback_text) ;;
  score <- get sentiment "score" (VInt 0) ;;
  negative <- py_lt score (NFloat (-0.5)) ;;
  if negative : bool then
    _alert_manager ("Negative feedback detected: " ++ feedback_text) ;;;
    let apology := _generate_apology_email feedback_text in
    score <- get sentiment "score" VNone ;;
    ret ({[ "sentiment" := VStr "negative";
            "score" := score;
            "action_taken" := VStr "manager_alerted_and_apology_generated";
            "apology_email" := VStr apology ]} : dict)
  else
    score <- get sentiment "score" (VInt 0) ;;
    positive <- py_gt score (NInt 0) ;;
    score <- get sentiment "score" VNone ;;
    ret ({[ "sentiment" := VStr (if positive : bool then "positive" else "neutral");
            "score" := score;
            "action_taken" := VStr "none" ]} : dict).

(** *** Inventory forecasting *)

Definition _get_historical_sales (store_id : string) (days : Z) : list dict := [].

Definition _call_vertex_ai_forecast (historical_data : list dict) (days_ahead : Z)
  : dict :=
  {[ "milk_tea" := VInt 150; "boba" := VInt 200; "fruit" := VInt 100 ]}.

Definition _generate_reorder_alerts (predictions : dict) : list string :=
  ["Reorder tapioca pearls"; "Reorder milk powder"].

Definition predict_inventory_needs (store_id : string) (days_ahead : Z) : M dict :=
  let historical_data := _get_historical_sales store_id 30 in
  let predictions := _call_vertex_ai_forecast historical_data days_ahead in
  generated_at <- datetime_now_isoformat ;;
  ret ({[ "store_id" := VStr store_id;
          "forecast_period" := VStr (py_str (VInt days_ahead) ++ " days");
          "generated_at" := VStr generated_at;
          "predictions" := VDict predictions;
          "reorder_alerts" := VList (VStr <$> _generate_reorder_alerts predictions) ]}
       : dict).

End Agent.

(** ** A scripted environment for concrete runs

    A test double: the processes answer from a script, in call order, and
    [json.loads] decodes the listed texts only. *)

Definition dq : string := String (Ascii.ascii_of_nat 34) "".

Definition JSONDecodeError : exn :=
  Exn "JSONDecodeError" "Expecting value: line 1 column 1 (char 0)".

Definition FileNotFoundError : exn :=
  Exn "FileNotFoundError" "[Errno 2] No such file or directory: 'manus-mcp-cli'".

Definition TimeoutExpired : exn :=
  Exn "TimeoutExpired" "Command 'manus-mcp-cli' timed out after 30 seconds".

Definition exited (code : Z) (out err : string) : result CompletedProcess :=
  Ok {| returncode := code; stdout := out; stderr := err |}.

Fixpoint decode_with (table : list (string * value)) (s : string) : result value :=
  match table with
  | [] => Raise JSONDecodeError
  | (text, v) :: table' => if decide (s = text) then Ok v else decode_with table' s
  end.

Definition scripted (processes : list (result CompletedProcess))
    (table : list (string * value)) : Env :=
  {| json_dumps := fun _ => Ok "{}";
     json_loads := decode_with table;
     subprocess_run := fun n _ => nth n processes (Raise FileNotFoundError);
     now_isoformat := fun n => "2024-05-01T09:00:0" ++ pretty (Z.of_nat n);
     uuid4_int := fun n => (0x3fa85f6457174562b3fc2c963f66afa6 + N.of_nat n)%N;
     str_compound := fun v => "<" ++ type_name v ++ ">";
     add_objects := fun a b => Raise (TypeError "unsupported operand type(s) for +");
     iadd_objects := fun a b => Raise (TypeError "unsupported operand type(s) for +=");
     int_object := fun v => Raise (TypeError "int() argument must be a number") |}.

(** No tool client is installed: every bridge call fails to start. *)
Definition offline : Env := scripted [] [].

(** The tool answers the n-th call with exit code 0 and the n-th payload;
    once the payloads are used up it fails to start. *)
Definition answers (payloads : list value) : Env :=
  scripted (imap (fun i _ => exited 0 (pretty i) "") payloads)
           (imap (fun i v => (pretty i, v)) payloads).

(** The tool exits with code 1 on every one of the first [n] calls. *)
Definition failing (n : nat) : Env :=
  scripted (replicate n (exited 1 "" "quota exceeded")) [].

Definition w0 : world := World [] [] 0 0.

(** ** Vocabulary of the statements *)

(** What [analyze_customer_sentiment] returns when it escalates. *)
Definition escalated (score : value) : dict :=
  {[ "sentiment" := VStr "negative";
     "score" := score;
     "action_taken" := VStr "manager_alerted_and_apology_generated";
     "apology_email" :=
       VStr "We're sorry for your experience. Please accept this free drink coupon." ]}.

(** What [analyze_customer_sentiment] returns when it does not. *)
Definition not_escalated (sentiment : string) (score : value) : dict :=
  {[ "sentiment" := VStr sentiment;
     "score" := score;
     "action_taken" := VStr "none" ]}.

(** One of [0-9A-F]. *)
Definition is_upper_hex (c : Ascii.ascii) : bool :=
  let n := Ascii.N_of_ascii c in
  (((48 <=? n) && (n <=? 57)) || ((65 <=? n) && (n <=? 70)))%N.

(** One of [0-9a-f]. *)
Definition is_lower_hex (c : Ascii.ascii) : bool :=
  let n := Ascii.N_of_ascii c in
  (((48 <=? n) && (n <=? 57)) || ((97 <=? n) && (n <=? 102)))%N.

Fixpoint all_chars (p : Ascii.ascii -> bool) (s : string) : bool :=
  match s with
  | EmptyString => true
  | String c s' => p c && all_chars p s'
  end.

(** The profile of a customer who has just signed up. *)
Definition fresh_profile (id : string) (customer_data : dict) (signup_date : string)
  : dict :=
  {[ "id" := VStr id;
     "name" := default VNone (customer_data !! "name");
     "phone" := default VNone (customer_data !! "phone");
     "email" := default VNone (customer_data !! "email");
     "favorite_drink" := default VNone (customer_data !! "favorite_drink");
     "signup_date" := VStr signup_date;
     "total_visits" := VInt 0;
     "total_spent" := VFloat 0;
     "loyalty_points" := VInt 100;
     "last_visit" := VNone;
     "status" := VStr "active" ]}.

(** A stored profile: identified, named, with a visit count, a numeric
    amount spent and a loyalty balance. *)
Record profile (c : dict) (visits : Z) (spent : num) (points : Z) : Prop := {
  profile_id : is_Some (c !! "id");
  profile_name : is_Some (c !! "name");
  profile_visits : c !! "total_visits" = Some (VInt visits);
  profile_spent : exists v, c !! "total_spent" = Some v /\ as_num v = Some spent;
  profile_points : c !! "loyalty_points" = Some (VInt points)
}.

(** A purchase whose amount is the number [a]. *)
Definition purchase_of (purchase_data : dict) (a : num) : Prop :=
  exists v, purchase_data !! "total_amount" = Some v /\ as_num v = Some a.

(** A transaction whose amount is the number [a]. *)
Definition has_amount (sale : dict) (a : num) : Prop :=
  exists v, sale !! "amount" = Some v /\ as_num v = Some a.

(** One more amount added to the running total of a sum. *)
Definition sum_step (total : result number) (a : num) : result number :=
  match total with
  | Ok t => number_add t (Finite a)
  | Raise e => Raise e
  end.

(** The built-in [sum] over numbers: from the int 0, left to right. *)
Definition sum_numbers (amounts : list num) : result number :=
  fold_left sum_step amounts (Ok (Finite (NInt 0))).

(** The average a report states for [count] transactions: the int 0 when
    there is none, otherwise the quotient [revenue / count]. *)
Definition average_of (revenue : number) (count : nat) : result value :=
  match count with
  | O => Ok (VInt 0)
  | S _ => result_map of_number (number_truediv revenue (Finite (NInt (Z.of_nat count))))
  end.

(** The float a decimal literal denotes, as [json.loads] and the
    interpreter read it. *)
Definition float_literal (q : Q) : value := of_number (number_of_float (binary64 q)).

(** A customer record that has a name. *)
Definition has_name (c : dict) : Prop := is_Some (c !! "name").

(** The line that [_send_message] prints. *)
Definition sending_line {E : Env} (name : value) (message : string) : string :=
  "Sending to " ++ py_str name ++ ": " ++ message.

(** The text of a recommendation message. *)
Definition recommendation_message {E : Env} (name : value) (recs : list string)
  : string :=
  "Hi " ++ py_str name ++ "! Based on your taste, you might love: "
  ++ String.concat ", " recs.


(** The recommendation campaign as the specification words it, customer
    by customer: a customer whose recommendation list is empty gets no
    message and counts for nothing; any other customer gets one message
    and counts for one.  [recommendation_run self cs w k w'] : from the
    world [w], the customers [cs] receive [k] messages and leave the
    world [w']. *)
Inductive recommendation_run {E : Env} (self : BobaBotAgent)
  : list dict -> world -> Z -> world -> Prop :=
  | rec_done w :
      recommendation_run self [] w 0 w
  | rec_skip c cs w w1 k w' :
      _get_ai_recommendations self c w = (Ok [], w1) ->
      recommendation_run self cs w1 k w' ->
      recommendation_run self (c :: cs) w k w'
  | rec_send c cs w recs w1 name k w' :
      _get_ai_recommendations self c w = (Ok recs, w1) ->
      recs <> [] ->
      c !! "name" = Some name ->
      recommendation_run self cs
        (with_line w1 (sending_line name (recommendation_message name recs))) k w' ->
      recommendation_run self (c :: cs) w (1 + k) w'.

(** The line that the handler of the re-engagement campaign prints. *)
Definition error_line {E : Env} (name : value) (e : exn) : string :=
  "Error sending to " ++ py_str name ++ ": " ++ exn_str e.

(** The text of a birthday message for [customer]. *)
Definition birthday_message {E : Env} (name : value) (customer : dict) : string :=
  "Happy Birthday " ++ py_str name ++ "! Enjoy a free "
  ++ py_str (default (VStr "Any drink") (customer !! "favorite_drink")) ++ " on us!".

(** The line the birthday campaign prints for [customer]. *)
Definition birthday_line {E : Env} (customer : dict) : string :=
  let name := default VNone (customer !! "name") in
  sending_line name (birthday_message name customer).

(** The line [_check_milestone_rewards] prints. *)
Definition milestone_line {E : Env} (name : value) (visits : Z) : string :=
  "Milestone! " ++ py_str name ++ " reached " ++ py_str (VInt visits) ++ " visits!".

(** The line [_send_welcome_message] prints. *)
Definition welcome_line {E : Env} (name : value) : string :=
  sending_line name
    ("Welcome to Boba Club, " ++ py_str name ++ "! You've earned 100 points!").

(** The newline character. *)
Definition newline : Ascii.ascii := Ascii.ascii_of_nat 10.

(** A text made of whitespace only. *)
Definition blank (s : string) : bool := all_chars is_space s.

(** A text without a newline. *)
Definition one_line (s : string) : bool :=
  all_chars (fun c => negb (bool_decide (c = newline))) s.

(** A line as the recommendation call keeps it: not empty, no
    whitespace at either end, no newline inside. *)
Definition clean_line (r : string) : Prop :=
  r <> "" /\ strip r = r /\ one_line r = true.

(** The world after several more lines are printed. *)
Definition with_lines (w : world) (lines : list string) : world :=
  World (printed w ++ lines) (spawned w) (clock_reads w) (uuids_drawn w).

(** The world after the clock is read once. *)
Definition after_clock_read (w : world) : world :=
  World (printed w) (spawned w) (S (clock_reads w)) (uuids_drawn w).

(** The sum of a list of integers. *)
Definition Zsum (l : list Z) : Z := fold_right Z.add 0 l.



(** Sample customer records for the concrete runs. *)
Definition An : dict := {[ "name" := VStr "An"; "favorite_drink" := VStr "Taro Milk Tea" ]}.
Definition Binh : dict := {[ "name" := VStr "Binh" ]}.
Definition Chi : dict := {[ "name" := VStr "Chi" ]}.
Definition nameless : dict := {[ "phone" := VStr "0901234567" ]}.

(** A stored profile with four visits. *)
Definition regular : dict :=
  {[ "id" := VStr "CUST-0000ABCD"; "name" := VStr "An"; "total_visits" := VInt 4;
     "total_spent" := VFloat 31.5; "loyalty_points" := VInt 131;
     "last_visit" := VStr "2024-04-30T18:30:00"; "status" := VStr "active" ]}.

(** * Properties *)

(** ** Running the monad *)

(** Concrete runs are evaluated once and their outcome supplied as the
    witness of the leading existentials. *)
Ltac exists_outcome run :=
  let r := eval vm_compute in run in
  lazymatch r with
  | (Ok ?a, ?w) => exists a, w
  end.

Ltac exists_world run :=
  let r := eval vm_compute in run in
  lazymatch r with
  | (_, ?w) => exists w
  end.

Ltac exists_report run :=
  let r := eval vm_compute in run in
  lazymatch r with
  | (Ok ?report, ?w) =>
      let m := eval vm_compute in (report !! "metrics") in
      lazymatch m with
      | Some (VDict ?metrics) => exists report, metrics, w
      end
  end.

Ltac by_running := vm_compute; reflexivity.


Lemma bind_Ok {A B} (m : M A) (k : A -> M B) w a w' :
  m w = (Ok a, w') -> bind m k w = k a w'.
Proof. intros H. unfold bind. by rewrite H. Qed.

Lemma bind_Raise {A B} (m : M A) (k : A -> M B) w e w' :
  m w = (Raise e, w') -> bind m k w = (Raise e, w').
Proof. intros H. unfold bind. by rewrite H. Qed.

Lemma try_except_Ok {A} (body : M A) handler w a w' :
  body w = (Ok a, w') -> try_except body handler w = (Ok a, w').
Proof. intros H. unfold try_except. by rewrite H. Qed.

Lemma try_except_Raise {A} (body : M A) handler w e w' :
  body w = (Raise e, w') -> try_except body handler w = handler e w'.
Proof. intros H. unfold try_except. by rewrite H. Qed.

Lemma getitem_Some {E : Env} (d : dict) key v w :
  d !! key = Some v -> getitem d key w = (Ok v, w).
Proof. intros H. unfold getitem. by rewrite H. Qed.

Lemma getitem_None {E : Env} (d : dict) key w :
  d !! key = None -> getitem d key w = (Raise (KeyError key), w).
Proof. intros H. unfold getitem. by rewrite H. Qed.

Lemma print_run line w : print line w = (Ok tt, with_line w line).
Proof. reflexivity. Qed.

(** ** The tool bridge *)

Section Bridge.
Context {E : Env}.
Variable self : BobaBotAgent.

(** The bridge always returns; it reads neither the clock nor a uuid. *)
Lemma call_mcp_tool_returns tool params w :
  exists v w', _call_mcp_tool self tool params w = (Ok v, w')
    /\ clock_reads w' = clock_reads w /\ uuids_drawn w' = uuids_drawn w.
Proof.
  unfold _call_mcp_tool, try_except, bind, lift, run, print, ret, mcp_argv.
  destruct (json_dumps (VDict params)) as [params_json|e]; simpl; [|eauto].
  destruct (subprocess_run _ _) as [cp|e]; simpl; [|eauto].
  destruct (decide (returncode cp = 0)); simpl; [|eauto].
  destruct (json_loads (stdout cp)); simpl; eauto.
Qed.


End Bridge.

(** ** Numbers *)

Lemma as_number_num v s : as_num v = Some s -> as_number v = Some (Finite s).
Proof. intros H. unfold as_number. by rewrite H. Qed.

Lemma as_number_of_number n : as_number (of_number n) = Some n.
Proof. by destruct n as [[z|q]|x]. Qed.

Lemma py_lt_run {E : Env} (a : value) (b x : num) w :
  as_num a = Some x -> py_lt a b w = (Ok (num_ltb x b), w).
Proof. intros H. unfold py_lt. by rewrite (as_number_num _ _ H). Qed.

Lemma py_gt_run {E : Env} (a : value) (b x : num) w :
  as_num a = Some x -> py_gt a b w = (Ok (num_ltb b x), w).
Proof. intros H. unfold py_gt. by rewrite (as_number_num _ _ H). Qed.

Lemma py_int_run {E : Env} (v : value) (x : num) w :
  as_num v = Some x -> py_int v w = (Ok (num_int x), w).
Proof. intros H. unfold py_int. by rewrite (as_number_num _ _ H). Qed.

(** [+] and [+=] on two finite numbers. *)
Lemma py_add_with_run {E : Env} op objects (a b : value) (x y : num) s w :
  as_num a = Some x ->
  as_num b = Some y ->
  number_add (Finite x) (Finite y) = Ok s ->
  py_add_with op objects a b w = (Ok (of_number s), w).
Proof.
  intros Ha Hb Hs. unfold py_add_with.
  by rewrite (as_number_num _ _ Ha), (as_number_num _ _ Hb), Hs.
Qed.

(** ** The sentiment responder *)

Lemma num_ltb_lt a b : num_ltb a b = true <-> (num_Q a < num_Q b)%Q.
Proof.
  unfold num_ltb. rewrite negb_true_iff, <- not_true_iff_false, Qle_bool_iff.
  split; [apply Qnot_le_lt | apply Qlt_not_le].
Qed.

Lemma num_ltb_ge a b : num_ltb a b = false <-> (num_Q b <= num_Q a)%Q.
Proof.
  unfold num_ltb. rewrite negb_false_iff. apply Qle_bool_iff.
Qed.

Section Sentiment.
Context {E : Env}.
Variable self : BobaBotAgent.

(** The responder, once the tool has answered with a dict whose score
    is a number. *)
Lemma analyze_customer_sentiment_run feedback_text w sentiment v s w1 :
  _call_mcp_tool self "google_vertex_ai_analyze_text_sentiment"
    (sentiment_params feedback_text) w = (Ok (VDict sentiment), w1) ->
  sentiment !! "score" = Some v ->
  as_num v = Some s ->
  analyze_customer_sentiment self feedback_text w =
    if num_ltb s (NFloat (-0.5)) then
      (Ok (escalated v),
       with_line w1 ("ALERT: Negative feedback detected: " ++ feedback_text))
    else
      (Ok (not_escalated (if num_ltb (NInt 0) s then "positive" else "neutral") v), w1).
Proof.
  intros Hcall Hscore Hnum.
  unfold analyze_customer_sentiment.
  rewrite (bind_Ok _ _ _ _ _ Hcall).
  unfold get, dict_get, bind, ret, _alert_manager, print.
  rewrite Hscore. simpl.
  rewrite (py_lt_run v _ s w1 Hnum).
  destruct (num_ltb s (NFloat (-0.5))); [reflexivity|].
  by rewrite (py_gt_run v _ s w1 Hnum).
Qed.

(** C3.  Let the sentiment tool answer with a numeric score s.  The
    responder escalates exactly when s < -0.5: it then prints the manager
    alert and returns sentiment negative with action
    manager_alerted_and_apology_generated and the apology text.  When
    -0.5 <= s nothing is printed and the action is none, with sentiment
    positive exactly when 0 < s, and neutral when s <= 0. *)
Theorem sentiment_thresholds :
  forall (feedback_text : string) (w : world) (sentiment : dict) (v : value)
         (s : num) (w1 : world),
    _call_mcp_tool self "google_vertex_ai_analyze_text_sentiment"
      (sentiment_params feedback_text) w = (Ok (VDict sentiment), w1) ->
    sentiment !! "score" = Some v ->
    as_num v = Some s ->
    ((num_Q s < -0.5)%Q ->
       analyze_customer_sentiment self feedback_text w =
         (Ok (escalated v),
          with_line w1 ("ALERT: Negative feedback detected: " ++ feedback_text)))
    /\ ((-0.5 <= num_Q s)%Q -> (0 < num_Q s)%Q ->
          analyze_customer_sentiment self feedback_text w =
            (Ok (not_escalated "positive" v), w1))
    /\ ((-0.5 <= num_Q s)%Q -> (num_Q s <= 0)%Q ->
          analyze_customer_sentiment self feedback_text w =
            (Ok (not_escalated "neutral" v), w1)).
Proof.
  intros feedback_text w sentiment v s w1 Hcall Hscore Hnum.
  rewrite (analyze_customer_sentiment_run _ _ _ _ _ _ Hcall Hscore Hnum).
  repeat split.
  - intros Hlt. apply (num_ltb_lt s (NFloat (-0.5))) in Hlt. by rewrite Hlt.
  - intros Hge Hpos.
    apply (num_ltb_ge s (NFloat (-0.5))) in Hge. rewrite Hge.
    apply (num_ltb_lt (NInt 0) s) in Hpos. by rewrite Hpos.
  - intros Hge Hle.
    apply (num_ltb_ge s (NFloat (-0.5))) in Hge. rewrite Hge.
    apply (num_ltb_ge (NInt 0) s) in Hle. by rewrite Hle.
Qed.

(** C10.  When the tool answers with a dict that has no score (an
    error-tagged result is one), both comparisons read the default 0:
    the responder prints nothing, so the manager is not alerted and no
    apology is made, and it returns sentiment neutral, action none and
    score None. *)
Theorem sentiment_without_score :
  forall (feedback_text : string) (w : world) (sentiment : dict) (w1 : world),
    _call_mcp_tool self "google_vertex_ai_analyze_text_sentiment"
      (sentiment_params feedback_text) w = (Ok (VDict sentiment), w1) ->
    sentiment !! "score" = None ->
    analyze_customer_sentiment self feedback_text w =
      (Ok (not_escalated "neutral" VNone), w1).
Proof.
  intros feedback_text w sentiment w1 Hcall Hscore.
  unfold analyze_customer_sentiment.
  rewrite (bind_Ok _ _ _ _ _ Hcall).
  unfold get, dict_get, bind, ret, py_lt, py_gt.
  rewrite Hscore. reflexivity.
Qed.

End Sentiment.

(** ** Customer capture *)

Lemma hex_digit_lower d : (d < 16)%N -> is_lower_hex (hex_digit d) = true.
Proof.
  intros H.
  assert (Hd : In d (map N.of_nat (seq 0 16))).
  { apply in_map_iff. exists (N.to_nat d). split; [lia|]. apply in_seq. lia. }
  simpl in Hd. repeat (destruct Hd as [<-|Hd]; [reflexivity|]). destruct Hd.
Qed.

Lemma hex_fixed_lower width : forall n acc,
  all_chars is_lower_hex acc = true ->
  all_chars is_lower_hex (hex_fixed width n acc) = true.
Proof.
  induction width as [|width IH]; intros n acc Hacc; simpl; [done|].
  apply IH. simpl. rewrite Hacc, hex_digit_lower; [done|].
  apply N.mod_lt. done.
Qed.

Lemma hex_fixed_length width : forall n acc,
  String.length (hex_fixed width n acc) = (width + String.length acc)%nat.
Proof.
  induction width as [|width IH]; intros n acc; simpl; [done|].
  rewrite IH. simpl. lia.
Qed.

Lemma slice_to_all p n : forall s,
  all_chars p s = true -> all_chars p (slice_to n s) = true.
Proof.
  induction n as [|n IH]; intros [|c s]; simpl; try done.
  intros [Hc Hs]%andb_true_iff. rewrite Hc. simpl. by apply IH.
Qed.

Lemma slice_to_length n : forall s,
  (n <= String.length s)%nat -> String.length (slice_to n s) = n.
Proof.
  induction n as [|n IH]; intros [|c s]; simpl; try done; try lia.
  intros H. rewrite IH; lia.
Qed.

Lemma upper_char_hex c : is_lower_hex c = true -> is_upper_hex (upper_char c) = true.
Proof.
  destruct c as [[] [] [] [] [] [] [] []]; vm_compute; done.
Qed.

Lemma upper_hex s :
  all_chars is_lower_hex s = true -> all_chars is_upper_hex (upper s) = true.
Proof.
  induction s as [|c s IH]; simpl; [done|].
  intros [Hc Hs]%andb_true_iff. by rewrite upper_char_hex, IH.
Qed.

Lemma upper_length s : String.length (upper s) = String.length s.
Proof. induction s as [|c s IH]; simpl; [done|]. by rewrite IH. Qed.

(** The identifier suffix: eight characters of [0-9A-F]. *)
Lemma customer_id_suffix n :
  let h := upper (slice_to 8 (uuid_hex n)) in
  String.length h = 8%nat /\ all_chars is_upper_hex h = true.
Proof.
  unfold uuid_hex. split.
  - rewrite upper_length, slice_to_length; [done|]. rewrite hex_fixed_length. simpl. lia.
  - apply upper_hex, slice_to_all, hex_fixed_lower. done.
Qed.

Section Capture.
Context {E : Env}.
Variable self : BobaBotAgent.

Lemma send_message_run (customer : dict) name message w :
  customer !! "name" = Some name ->
  _send_message customer message w
  = (Ok tt, with_line w ("Sending to " ++ py_str name ++ ": " ++ py_str message)).
Proof.
  intros H. unfold _send_message. by rewrite (bind_Ok _ _ _ _ _ (getitem_Some _ _ _ _ H)).
Qed.

Lemma send_welcome_message_run (customer : dict) name w :
  customer !! "name" = Some name ->
  _send_welcome_message customer w
  = (Ok tt, with_line w ("Sending to " ++ py_str name ++ ": Welcome to Boba Club, "
                         ++ py_str name ++ "! You've earned 100 points!")).
Proof.
  intros H. unfold _send_welcome_message.
  rewrite (bind_Ok _ _ _ _ _ (getitem_Some _ _ _ _ H)).
  by rewrite (send_message_run _ _ _ _ H).
Qed.

(** Persisting a profile that has a name always returns, whatever the
    bridge answers. *)
Lemma store_customer_returns (customer : dict) name w :
  customer !! "name" = Some name ->
  exists w', _store_customer_in_sheets self customer w = (Ok tt, w')
    /\ clock_reads w' = clock_reads w /\ uuids_drawn w' = uuids_drawn w.
Proof.
  intros H. unfold _store_customer_in_sheets.
  rewrite (bind_Ok _ _ _ _ _ (getitem_Some _ _ _ _ H)).
  match goal with |- context [_call_mcp_tool self ?t ?p] =>
    destruct (call_mcp_tool_returns self t p w) as (v & w' & Hc & Hk & Hu) end.
  exists w'. rewrite (bind_Ok _ _ _ _ _ Hc). done.
Qed.

(** [capture_customer] always returns, and returns the fresh profile. *)
Lemma capture_customer_returns (customer_data : dict) (w : world) :
  exists w',
    capture_customer self customer_data w
    = (Ok (fresh_profile
             ("CUST-" ++ upper (slice_to 8 (uuid_hex (uuid4_int (uuids_drawn w)))))
             customer_data (now_isoformat (clock_reads w))), w').
Proof.
  unfold capture_customer.
  unfold bind at 1. unfold _generate_customer_id at 1.
  unfold bind at 1. unfold datetime_now_isoformat at 1. cbn [clock_reads].
  set (customer := <["id" := _]> _).
  set (w1 := World _ _ _ _).
  assert (Hname : customer !! "name" = Some (dict_get customer_data "name" VNone)) by done.
  destruct (store_customer_returns customer _ w1 Hname) as (w2 & Hstore & _ & _).
  rewrite (bind_Ok _ _ _ _ _ Hstore).
  rewrite (bind_Ok _ _ _ _ _ (send_welcome_message_run customer _ _ Hname)).
  eexists. reflexivity.
Qed.

(** C7.  For every input mapping, [capture_customer] returns a profile,
    whatever the persistence call does: the identifier is CUST- followed
    by eight characters of 0-9A-F, the four contact fields are those of
    the input, None where the input has none, the counters are zero, the
    loyalty balance is exactly 100, last_visit is None and the status is
    active. *)
Theorem capture_customer_profile :
  forall (customer_data : dict) (w : world),
    exists (customer : dict) (w' : world) (h : string),
      capture_customer self customer_data w = (Ok customer, w')
      /\ customer !! "id" = Some (VStr ("CUST-" ++ h))
      /\ String.length h = 8%nat
      /\ all_chars is_upper_hex h = true
      /\ customer !! "name" = Some (default VNone (customer_data !! "name"))
      /\ customer !! "phone" = Some (default VNone (customer_data !! "phone"))
      /\ customer !! "email" = Some (default VNone (customer_data !! "email"))
      /\ customer !! "favorite_drink"
         = Some (default VNone (customer_data !! "favorite_drink"))
      /\ customer !! "signup_date" = Some (VStr (now_isoformat (clock_reads w)))
      /\ customer !! "total_visits" = Some (VInt 0)
      /\ customer !! "total_spent" = Some (VFloat 0)
      /\ customer !! "loyalty_points" = Some (VInt 100)
      /\ customer !! "last_visit" = Some VNone
      /\ customer !! "status" = Some (VStr "active").
Proof.
  intros customer_data w.
  destruct (capture_customer_returns customer_data w) as (w' & Hrun).
  destruct (customer_id_suffix (uuid4_int (uuids_drawn w))) as [Hlen Hhex].
  eexists _, w', _. split; [exact Hrun|].
  repeat split; try done.
Qed.

End Capture.

(** ** Purchase tracking *)

Lemma num_int_floor a : (0 <= num_Q a)%Q -> num_int a = Qfloor (num_Q a).
Proof.
  destruct a as [z|[n d]]; simpl; intros H.
  - by rewrite Z.div_1_r.
  - apply Z.quot_div_nonneg; [|done].
    unfold Qle in H. simpl in H. lia.
Qed.

Lemma quot_sign n d :
  0 < d -> (- d < n -> 0 <= Z.quot n d) /\ (n <= - d -> Z.quot n d < 0).
Proof.
  intros Hd. split; intros H.
  - destruct (Z.le_gt_cases 0 n) as [Hn|Hn].
    + apply Z.quot_pos; lia.
    + replace n with (- (- n)) by lia. rewrite Z.quot_opp_l by lia.
      rewrite Z.quot_small; lia.
  - replace n with (- (- n)) by lia. rewrite Z.quot_opp_l by lia.
    pose proof (Z.quot_str_pos (- n) d). lia.
Qed.

(** [int()] truncates toward zero: a number above -1 gives no negative
    integer, a number of -1 or less gives a negative one. *)
Lemma num_int_sign a :
  ((-1 < num_Q a)%Q -> 0 <= num_int a) /\ ((num_Q a <= -1)%Q -> num_int a < 0).
Proof.
  destruct a as [z|[n d]]; unfold Qlt, Qle; simpl.
  - lia.
  - destruct (quot_sign n (Z.pos d)) as [Hge Hlt]; [lia|].
    split; intros H; [apply Hge|apply Hlt]; lia.
Qed.

Lemma upd_bind_Ok {A B} (m : Upd A) (k : A -> Upd B) obj w a obj' w' :
  m obj w = (Ok a, obj', w') -> upd_bind m k obj w = k a obj' w'.
Proof. intros H. unfold upd_bind. by rewrite H. Qed.

Lemma upd_bind_Raise {A B} (m : Upd A) (k : A -> Upd B) obj w e obj' w' :
  m obj w = (Raise e, obj', w') -> upd_bind m k obj w = (Raise e, obj', w').
Proof. intros H. unfold upd_bind. by rewrite H. Qed.

Lemma upd_lift_run {A} (m : M A) obj w r w' :
  m w = (r, w') -> upd_lift m obj w = (r, obj, w').
Proof. intros H. unfold upd_lift. by rewrite H. Qed.

Section Purchase.
Context {E : Env}.
Variable self : BobaBotAgent.

Lemma iadd_item_run (d : dict) key (rhs : M value) old v x y s w w1 :
  d !! key = Some old ->
  rhs w = (Ok v, w1) ->
  as_num old = Some x ->
  as_num v = Some y ->
  number_add (Finite x) (Finite y) = Ok s ->
  iadd_item d key rhs w = (Ok (<[key := of_number s]> d), w1).
Proof.
  intros Hd Hrhs Hx Hy Hs. unfold iadd_item.
  rewrite (bind_Ok _ _ _ _ _ (getitem_Some _ _ _ _ Hd)).
  rewrite (bind_Ok _ _ _ _ _ Hrhs).
  unfold py_iadd. by rewrite (bind_Ok _ _ _ _ _ (py_add_with_run _ _ _ _ _ _ _ _ Hx Hy Hs)).
Qed.

Lemma upd_iadd_item_run (obj : dict) key (rhs : M value) old v x y s w w1 :
  obj !! key = Some old ->
  rhs w = (Ok v, w1) ->
  as_num old = Some x ->
  as_num v = Some y ->
  number_add (Finite x) (Finite y) = Ok s ->
  upd_iadd_item key rhs obj w = (Ok tt, <[key := of_number s]> obj, w1).
Proof.
  intros Hd Hrhs Hx Hy Hs. unfold upd_iadd_item.
  rewrite (upd_bind_Ok _ _ _ _ _ _ _ eq_refl).
  rewrite (upd_bind_Ok _ _ _ _ _ _ _ (upd_lift_run _ _ _ _ _ (getitem_Some _ _ _ _ Hd))).
  rewrite (upd_bind_Ok _ _ _ _ _ _ _ (upd_lift_run _ _ _ _ _ Hrhs)).
  unfold py_iadd.
  by rewrite (upd_bind_Ok _ _ _ _ _ _ _
                (upd_lift_run _ _ _ _ _ (py_add_with_run _ _ _ _ _ _ _ _ Hx Hy Hs))).
Qed.

(** The item is read first: when it is missing nothing is evaluated or
    stored. *)
Lemma upd_iadd_item_missing (obj : dict) key (rhs : M value) w :
  obj !! key = None -> upd_iadd_item key rhs obj w = (Raise (KeyError key), obj, w).
Proof.
  intros H. unfold upd_iadd_item.
  rewrite (upd_bind_Ok _ _ _ _ _ _ _ eq_refl).
  by rewrite (upd_bind_Raise _ _ _ _ _ _ _ (upd_lift_run _ _ _ _ _ (getitem_None _ _ w H))).
Qed.

Lemma upd_iadd_item_rhs_raises (obj : dict) key (rhs : M value) old e w w1 :
  obj !! key = Some old ->
  rhs w = (Raise e, w1) ->
  upd_iadd_item key rhs obj w = (Raise e, obj, w1).
Proof.
  intros Hd Hrhs. unfold upd_iadd_item.
  rewrite (upd_bind_Ok _ _ _ _ _ _ _ eq_refl).
  rewrite (upd_bind_Ok _ _ _ _ _ _ _ (upd_lift_run _ _ _ _ _ (getitem_Some _ _ _ _ Hd))).
  by rewrite (upd_bind_Raise _ _ _ _ _ _ _ (upd_lift_run _ _ _ _ _ Hrhs)).
Qed.

(** The float addition raises before anything is stored. *)
Lemma upd_iadd_item_add_raises (obj : dict) key (rhs : M value) old v x y e w w1 :
  obj !! key = Some old ->
  rhs w = (Ok v, w1) ->
  as_num old = Some x ->
  as_num v = Some y ->
  number_add (Finite x) (Finite y) = Raise e ->
  upd_iadd_item key rhs obj w = (Raise e, obj, w1).
Proof.
  intros Hd Hrhs Hx Hy Hs. unfold upd_iadd_item.
  rewrite (upd_bind_Ok _ _ _ _ _ _ _ eq_refl).
  rewrite (upd_bind_Ok _ _ _ _ _ _ _ (upd_lift_run _ _ _ _ _ (getitem_Some _ _ _ _ Hd))).
  rewrite (upd_bind_Ok _ _ _ _ _ _ _ (upd_lift_run _ _ _ _ _ Hrhs)).
  apply upd_bind_Raise, upd_lift_run.
  unfold py_iadd, py_add_with.
  by rewrite (as_number_num _ _ Hx), (as_number_num _ _ Hy), Hs.
Qed.

Lemma update_customer_returns (customer : dict) w :
  is_Some (customer !! "id") ->
  exists w', _update_customer_in_sheets self customer w = (Ok tt, w')
    /\ clock_reads w' = clock_reads w /\ uuids_drawn w' = uuids_drawn w.
Proof.
  intros [id H]. unfold _update_customer_in_sheets.
  rewrite (bind_Ok _ _ _ _ _ (getitem_Some _ _ _ _ H)).
  match goal with |- context [_call_mcp_tool self ?t ?p] =>
    destruct (call_mcp_tool_returns self t p w) as (v & w' & Hc & Hk & Hu) end.
  exists w'. rewrite (bind_Ok _ _ _ _ _ Hc). done.
Qed.

Lemma check_milestone_returns (customer : dict) w :
  is_Some (customer !! "total_visits") ->
  is_Some (customer !! "name") ->
  exists w', _check_milestone_rewards customer w = (Ok tt, w').
Proof.
  intros [v Hv] [name Hn]. unfold _check_milestone_rewards.
  rewrite (bind_Ok _ _ _ _ _ (getitem_Some _ _ _ _ Hv)).
  destruct (py_in_ints v _); [|by eexists].
  rewrite (bind_Ok _ _ _ _ _ (getitem_Some _ _ _ _ Hn)).
  rewrite (bind_Ok _ _ _ _ _ (getitem_Some _ _ _ _ Hv)).
  by eexists.
Qed.

(** The statements of [track_purchase] on a stored profile and a
    purchase with a numeric amount, up to the ledger call: the profile
    object is fully updated before it is persisted and checked. *)
Lemma track_purchase_in_place_steps (c purchase_data : dict) visits spent points a
    total w :
  profile c visits spent points ->
  purchase_of purchase_data a ->
  number_add (Finite spent) (Finite a) = Ok total ->
  let c' := <["loyalty_points" := VInt (points + num_int a)]>
              (<["last_visit" := VStr (now_isoformat (clock_reads w))]>
                 (<["total_spent" := of_number total]>
                    (<["total_visits" := VInt (visits + 1)]> c))) in
  track_purchase_in_place self purchase_data c w
  = upd_bind (upd_lift (_update_customer_in_sheets self c'))
      (fun _ => upd_bind upd_read
         (fun customer => upd_bind (upd_lift (_check_milestone_rewards customer))
            (fun _ => upd_read)))
      c' (after_clock_read w).
Proof.
  intros [Hid Hname Hvisits (t & Hspent & Ht) Hpoints] (v & Hamount & Ha) Htotal c'.
  unfold track_purchase_in_place.
  erewrite upd_bind_Ok
    by (eapply upd_iadd_item_run;
        [exact Hvisits|reflexivity|reflexivity|reflexivity|reflexivity]).
  erewrite upd_bind_Ok.
  2:{ eapply upd_iadd_item_run; [|apply getitem_Some, Hamount|exact Ht|exact Ha|exact Htotal].
      by rewrite lookup_insert_ne. }
  erewrite upd_bind_Ok by reflexivity.
  erewrite upd_bind_Ok by reflexivity.
  erewrite upd_bind_Ok by (apply upd_lift_run, getitem_Some, Hamount).
  erewrite upd_bind_Ok by (apply upd_lift_run, (py_int_run _ _ _ Ha)).
  erewrite upd_bind_Ok.
  2:{ apply (upd_iadd_item_run _ "loyalty_points" _ (VInt points) (VInt (num_int a))
               (NInt points) (NInt (num_int a)) (Finite (NInt (points + num_int a))));
        [|reflexivity|reflexivity|reflexivity|reflexivity].
      rewrite !lookup_insert_ne by done. exact Hpoints. }
  erewrite upd_bind_Ok by reflexivity.
  reflexivity.
Qed.

(** What the caller gets on such a purchase. *)
Lemma track_purchase_body_steps (c purchase_data : dict) visits spent points a
    total w :
  profile c visits spent points ->
  purchase_of purchase_data a ->
  number_add (Finite spent) (Finite a) = Ok total ->
  let c' := <["loyalty_points" := VInt (points + num_int a)]>
              (<["last_visit" := VStr (now_isoformat (clock_reads w))]>
                 (<["total_spent" := of_number total]>
                    (<["total_visits" := VInt (visits + 1)]> c))) in
  track_purchase_body self c purchase_data w
  = bind (_update_customer_in_sheets self c')
         (fun _ => bind (_check_milestone_rewards c') (fun _ => ret c'))
         (after_clock_read w).
Proof.
  intros Hprofile Hpurchase Htotal c'.
  unfold track_purchase_body.
  rewrite (track_purchase_in_place_steps c purchase_data _ _ _ a total w
             Hprofile Hpurchase Htotal).
  fold c'. unfold upd_bind, upd_lift, upd_read, bind, ret.
  destruct (_update_customer_in_sheets self c' (after_clock_read w)) as [[[]|e] w2];
    [|reflexivity].
  destruct (_check_milestone_rewards c' w2) as [[[]|e] w3]; reflexivity.
Qed.

(** On a stored profile, the update raises when the two amounts cannot
    be added: the visit is counted by then, and nothing else has
    happened. *)
Lemma track_purchase_in_place_overflow (c purchase_data : dict) visits spent points a
    e w :
  profile c visits spent points ->
  purchase_of purchase_data a ->
  number_add (Finite spent) (Finite a) = Raise e ->
  track_purchase_in_place self purchase_data c w
  = (Raise e, <["total_visits" := VInt (visits + 1)]> c, w).
Proof.
  intros [Hid Hname Hvisits (t & Hspent & Ht) Hpoints] (v & Hamount & Ha) Htotal.
  unfold track_purchase_in_place.
  erewrite upd_bind_Ok
    by (eapply upd_iadd_item_run;
        [exact Hvisits|reflexivity|reflexivity|reflexivity|reflexivity]).
  apply upd_bind_Raise.
  eapply upd_iadd_item_add_raises; [|apply getitem_Some, Hamount|exact Ht|exact Ha|exact Htotal].
  by rewrite lookup_insert_ne.
Qed.

(** [track_purchase] on a stored profile and a purchase whose amount can
    be added to the amount spent: it returns the updated profile. *)
Lemma track_purchase_body_run (c purchase_data : dict) visits spent points a total w :
  profile c visits spent points ->
  purchase_of purchase_data a ->
  number_add (Finite spent) (Finite a) = Ok total ->
  exists c' w',
    track_purchase_body self c purchase_data w = (Ok c', w')
    /\ c' = <["loyalty_points" := VInt (points + num_int a)]>
              (<["last_visit" := VStr (now_isoformat (clock_reads w))]>
                 (<["total_spent" := of_number total]>
                    (<["total_visits" := VInt (visits + 1)]> c))).
Proof.
  intros Hprofile Hpurchase Htotal.
  rewrite (track_purchase_body_steps c purchase_data _ _ _ a total w
             Hprofile Hpurchase Htotal).
  set (c' := <["loyalty_points" := _]> _).
  destruct (update_customer_returns c' (after_clock_read w)) as (w2 & Hupd & _ & _).
  { subst c'. rewrite !lookup_insert_ne by done. exact (profile_id _ _ _ _ Hprofile). }
  rewrite (bind_Ok _ _ _ _ _ Hupd).
  destruct (check_milestone_returns c' w2) as (w3 & Hchk).
  { subst c'. rewrite !lookup_insert_ne by done. rewrite lookup_insert_eq. by eexists. }
  { subst c'. rewrite !lookup_insert_ne by done. exact (profile_name _ _ _ _ Hprofile). }
  rewrite (bind_Ok _ _ _ _ _ Hchk).
  by exists c', w3.
Qed.


(** C5.  What [track_purchase] does on every customer id and every
    purchase: the profile that [_get_customer] returns has only an id and
    a name, so reading its visit counter raises KeyError before anything
    is updated, printed or sent.  No profile is returned. *)
Theorem track_purchase_raises_on_stub_profile :
  forall (customer_id : string) (purchase_data : dict) (w : world),
    track_purchase self customer_id purchase_data w
    = (Raise (KeyError "total_visits"), w).
Proof.
  intros customer_id purchase_data w.
  unfold track_purchase, track_purchase_body, track_purchase_in_place.
  assert (H : _get_customer customer_id !! "total_visits" = None) by done.
  by rewrite (upd_bind_Raise _ _ _ _ _ _ _ (upd_iadd_item_missing _ _ _ w H)).
Qed.


End Purchase.

(** ** The reporting engine *)

Lemma fold_sum_step_Raise amounts e : fold_left sum_step amounts (Raise e) = Raise e.
Proof. induction amounts as [|a amounts IH]; [done|exact IH]. Qed.

(** On integers the sum is exact. *)
Lemma fold_sum_step_ints zs : forall acc,
  fold_left sum_step (NInt <$> zs) (Ok (Finite (NInt acc)))
  = Ok (Finite (NInt (acc + Zsum zs))).
Proof.
  induction zs as [|z zs IH]; intros acc; simpl.
  - by rewrite Z.add_0_r.
  - rewrite IH. do 3 f_equal. lia.
Qed.

Section Reporting.
Context {E : Env}.
Variable self : BobaBotAgent.

(** The built-in [sum] over numeric amounts, from any running total. *)
Lemma sum_amounts_from sales amounts :
  Forall2 has_amount sales amounts ->
  forall (acc : number) w,
    for_each sales
      (fun sale total => amount <- getitem sale "amount" ;; py_add total amount)
      (of_number acc) w
    = (result_map of_number (fold_left sum_step amounts (Ok acc)), w).
Proof.
  induction 1 as [|sale a sales amounts (v & Hv & Ha) _ IH]; intros acc w; [done|].
  cbn [for_each fold_left sum_step].
  unfold bind at 1.
  rewrite (bind_Ok _ _ _ _ _ (getitem_Some _ _ _ _ Hv)).
  unfold py_add, py_add_with.
  rewrite as_number_of_number, (as_number_num _ _ Ha). unfold lift.
  destruct (number_add acc (Finite a)) as [t|e]; simpl.
  - apply IH.
  - by rewrite fold_sum_step_Raise.
Qed.

Lemma sum_amounts_run sales amounts w :
  Forall2 has_amount sales amounts ->
  sum_amounts sales w = (result_map of_number (sum_numbers amounts), w).
Proof.
  intros H. exact (sum_amounts_from sales amounts H (Finite (NInt 0)) w).
Qed.

Lemma py_truediv_run (revenue : number) (n : Z) w :
  py_truediv (of_number revenue) (VInt n) w
  = (result_map of_number (number_truediv revenue (Finite (NInt n))), w).
Proof. unfold py_truediv. by rewrite as_number_of_number. Qed.

Lemma store_report_returns (report : dict) w :
  is_Some (report !! "store_id") ->
  exists w', _store_report_in_sheets self report w = (Ok tt, w').
Proof.
  intros [id H]. unfold _store_report_in_sheets.
  rewrite (bind_Ok _ _ _ _ _ (getitem_Some _ _ _ _ H)).
  match goal with |- context [_call_mcp_tool self ?t ?p] =>
    destruct (call_mcp_tool_returns self t p w) as (v & w' & Hc & _) end.
  exists w'. by rewrite (bind_Ok _ _ _ _ _ Hc).
Qed.

(** The report on transactions that each carry a numeric amount, by
    what the sum and the division give. *)
Lemma sales_report_run (sales : list dict) (amounts : list num)
    (store_id period : string) (w : world) :
  Forall2 has_amount sales amounts ->
  match sum_numbers amounts with
  | Raise e =>
      generate_sales_report_body self sales store_id period w
      = (Raise e, after_clock_read w)
  | Ok revenue =>
      match average_of revenue (length sales) with
      | Raise e =>
          generate_sales_report_body self sales store_id period w
          = (Raise e, after_clock_read w)
      | Ok average =>
          exists (report metrics : dict) (w' : world),
            generate_sales_report_body self sales store_id period w
            = (Ok report, w')
            /\ report !! "metrics" = Some (VDict metrics)
            /\ metrics !! "total_revenue" = Some (of_number revenue)
            /\ metrics !! "total_transactions"
               = Some (VInt (Z.of_nat (length sales)))
            /\ metrics !! "average_transaction" = Some average
      end
  end.
Proof.
  intros Hsales.
  pose proof (sum_amounts_run sales amounts (after_clock_read w) Hsales) as Hsum.
  set (w1 := after_clock_read w) in *.
  assert (Hclock : forall k : string -> M dict,
            bind datetime_now_isoformat k w = k (now_isoformat (clock_reads w)) w1)
    by reflexivity.
  destruct (sum_numbers amounts) as [revenue|e]; cbn [result_map] in Hsum.
  2:{ unfold generate_sales_report_body. rewrite Hclock.
      by rewrite (bind_Raise _ _ _ _ _ Hsum). }
  destruct sales as [|sale sales].
  - cbn [average_of length].
    unfold generate_sales_report_body. rewrite Hclock.
    rewrite (bind_Ok _ _ _ _ _ Hsum).
    rewrite (bind_Ok _ _ _ _ _ (py_gt_run (VInt (Z.of_nat (length (@nil dict)))) _ _ w1 eq_refl)).
    change (num_ltb (NInt 0) (NInt (Z.of_nat (length (@nil dict))))) with false.
    cbv iota.
    rewrite (bind_Ok (ret (VInt 0)) _ w1 (VInt 0) w1 eq_refl).
    match goal with |- context [_store_report_in_sheets self ?r] =>
      destruct (store_report_returns r w1) as (w2 & Hstore); [by eexists|] end.
    rewrite (bind_Ok _ _ _ _ _ Hstore).
    eexists _, _, w2. split; [reflexivity|]. repeat split; done.
  - set (n := Z.of_nat (length (sale :: sales))).
    assert (Hn : 0 < n) by (subst n; simpl; lia).
    assert (Hpos : num_ltb (NInt 0) (NInt n) = true).
    { apply num_ltb_lt. simpl. unfold Qlt. simpl. lia. }
    change (average_of revenue (length (sale :: sales)))
      with (result_map of_number (number_truediv revenue (Finite (NInt n)))).
    pose proof (py_truediv_run revenue n w1) as Hdiv.
    destruct (number_truediv revenue (Finite (NInt n))) as [q|e];
      cbn [result_map] in *;
      unfold generate_sales_report_body; rewrite Hclock;
      rewrite (bind_Ok _ _ _ _ _ Hsum);
      rewrite (bind_Ok _ _ _ _ _ (py_gt_run (VInt n) _ _ w1 eq_refl));
      rewrite Hpos; cbv iota.
    + rewrite (bind_Ok _ _ _ _ _ Hdiv).
      match goal with |- context [_store_report_in_sheets self ?r] =>
        destruct (store_report_returns r w1) as (w2 & Hstore); [by eexists|] end.
      rewrite (bind_Ok _ _ _ _ _ Hstore).
      eexists _, _, w2. split; [reflexivity|]. repeat split; done.
    + by rewrite (bind_Raise _ _ _ _ _ Hdiv).
Qed.


End Reporting.

(** ** The campaign runner *)

Section Campaigns.
Context {E : Env}.
Variable self : BobaBotAgent.

(** What the bridge can return: an error-tagged result or a payload that
    [json.loads] produced. *)
Lemma call_mcp_tool_value tool params w :
  exists v w', _call_mcp_tool self tool params w = (Ok v, w')
    /\ ((exists msg, v = error_result msg) \/ (exists s, json_loads s = Ok v)).
Proof.
  unfold _call_mcp_tool, try_except, bind, lift, run, print, ret, mcp_argv.
  destruct (json_dumps (VDict params)) as [params_json|e]; simpl; [|eauto 6].
  destruct (subprocess_run _ _) as [cp|e]; simpl; [|eauto 6].
  destruct (decide (returncode cp = 0)); simpl; [|eauto 6].
  destruct (json_loads (stdout cp)) eqn:Hl; simpl; eauto 6.
Qed.

Lemma iadd_counter (results : dict) key k w :
  results !! key = Some (VInt k) ->
  iadd_item results key (ret (VInt 1)) w = (Ok (<[key := VInt (k + 1)]> results), w).
Proof.
  intros H.
  exact (iadd_item_run results key (ret (VInt 1)) (VInt k) (VInt 1)
           (NInt k) (NInt 1) (Finite (NInt (k + 1))) w w H eq_refl eq_refl eq_refl eq_refl).
Qed.

(** *** Re-engagement *)

Lemma generate_personalized_message_run (c : dict) campaign_type name v w w1 :
  c !! "name" = Some name ->
  _call_mcp_tool self "google_vertex_ai_send_prompt"
    (personalized_params c campaign_type name) w = (Ok v, w1) ->
  _generate_personalized_message self c campaign_type w
  = get v "text" (VStr "We miss you! Come back for 15% off!") w1.
Proof.
  intros Hn Hc. unfold _generate_personalized_message.
  rewrite (bind_Ok _ _ _ _ _ (getitem_Some _ _ _ _ Hn)).
  by rewrite (bind_Ok _ _ _ _ _ Hc).
Qed.

(** One iteration for a customer who has a name: exactly one of the two
    counters goes up by one. *)
Lemma we_miss_you_step_counts (c results : dict) sent errors w :
  has_name c ->
  results !! "messages_sent" = Some (VInt sent) ->
  results !! "errors" = Some (VInt errors) ->
  exists r' w',
    _run_we_miss_you_campaign_step self c results w = (Ok r', w')
    /\ (r' = <["messages_sent" := VInt (sent + 1)]> results
        \/ r' = <["errors" := VInt (errors + 1)]> results).
Proof.
  intros [name Hn] Hs He.
  destruct (call_mcp_tool_value "google_vertex_ai_send_prompt"
              (personalized_params c "we_miss_you" name) w) as (v & w1 & Hc & _).
  unfold _run_we_miss_you_campaign_step.
  destruct v as [| | | | | |l|d];
    try (eexists _, _; split; [|right; reflexivity];
         erewrite try_except_Raise;
           [|erewrite bind_Raise; [reflexivity|];
             by rewrite (generate_personalized_message_run _ _ _ _ _ _ Hn Hc)];
         rewrite (bind_Ok _ _ _ _ _ (getitem_Some _ _ _ _ Hn));
         rewrite (bind_Ok _ _ _ _ _ (print_run _ _));
         by rewrite (iadd_counter _ _ _ _ He)).
  eexists _, _. split; [|left; reflexivity].
  erewrite try_except_Ok; [reflexivity|].
  erewrite bind_Ok
    by (by rewrite (generate_personalized_message_run _ _ _ _ _ _ Hn Hc)).
  rewrite (bind_Ok _ _ _ _ _ (send_message_run _ _ _ _ Hn)).
  by rewrite (iadd_counter _ _ _ _ Hs).
Qed.

Lemma we_miss_you_loop customers : forall (results : dict) sent errors w,
  Forall has_name customers ->
  results !! "messages_sent" = Some (VInt sent) ->
  results !! "errors" = Some (VInt errors) ->
  exists r' w' sent' errors',
    for_each customers (_run_we_miss_you_campaign_step self) results w = (Ok r', w')
    /\ r' !! "messages_sent" = Some (VInt sent')
    /\ r' !! "errors" = Some (VInt errors')
    /\ sent' + errors' = sent + errors + Z.of_nat (length customers)
    /\ r' !! "target_count" = results !! "target_count".
Proof.
  induction customers as [|c customers IH]; intros results sent errors w Hall Hs He.
  - exists results, w, sent, errors. simpl. repeat split; try done. lia.
  - apply Forall_cons in Hall as [Hc Hall].
    destruct (we_miss_you_step_counts c results sent errors w Hc Hs He)
      as (r1 & w1 & Hstep & [-> | ->]).
    + destruct (IH (<["messages_sent" := VInt (sent + 1)]> results) (sent + 1) errors w1 Hall)
        as (r' & w' & s' & e' & Hrun & ? & ? & ? & Ht).
      { by rewrite lookup_insert_eq. }
      { by rewrite lookup_insert_ne. }
      exists r', w', s', e'. simpl. rewrite (bind_Ok _ _ _ _ _ Hstep).
      repeat split; try done; [lia|]. by rewrite Ht, lookup_insert_ne.
    + destruct (IH (<["errors" := VInt (errors + 1)]> results) sent (errors + 1) w1 Hall)
        as (r' & w' & s' & e' & Hrun & ? & ? & ? & Ht).
      { by rewrite lookup_insert_ne. }
      { by rewrite lookup_insert_eq. }
      exists r', w', s', e'. simpl. rewrite (bind_Ok _ _ _ _ _ Hstep).
      repeat split; try done; [lia|]. by rewrite Ht, lookup_insert_ne.
Qed.

(** When every targeted customer has a name the campaign returns, and
    its two counters add up to the number of customers. *)
Lemma we_miss_you_accounting (customers : list dict) (w : world) :
  Forall has_name customers ->
  exists results w' sent errors,
    _run_we_miss_you_campaign_body self customers w = (Ok results, w')
    /\ results !! "messages_sent" = Some (VInt sent)
    /\ results !! "errors" = Some (VInt errors)
    /\ sent + errors = Z.of_nat (length customers)
    /\ results !! "target_count" = Some (VInt (Z.of_nat (length customers))).
Proof.
  intros Hall. unfold _run_we_miss_you_campaign_body.
  match goal with |- context [for_each _ _ ?r] =>
    destruct (we_miss_you_loop customers r 0 0 w Hall eq_refl eq_refl)
      as (r' & w' & s' & e' & Hrun & Hs & He & Hsum & Ht) end.
  exists r', w', s', e'. repeat split; try done.
Qed.

(** C1.  What the re-engagement campaign does when a targeted customer
    record has no name: generating the message raises KeyError, the
    handler catches it, and the log line of the handler reads the name
    again and raises KeyError itself.  The campaign returns no result,
    no counter is incremented and the customers after this one are never
    processed. *)
Theorem we_miss_you_aborts_on_nameless_customer :
  forall (rest : list dict) (w : world),
    _run_we_miss_you_campaign_body self ({[ "phone" := VStr "0901234567" ]} :: rest) w
    = (Raise (KeyError "name"), w).
Proof.
  intros rest w. unfold _run_we_miss_you_campaign_body.
  cbn [for_each].
  apply bind_Raise.
  unfold _run_we_miss_you_campaign_step.
  erewrite try_except_Raise.
  2:{ apply bind_Raise. unfold _generate_personalized_message.
      apply bind_Raise. by apply getitem_None. }
  apply bind_Raise. by apply getitem_None.
Qed.

(** C9.  In the re-engagement campaign, when the bridge call of the
    message generation returns an error-tagged result, the message is the
    fixed default text, it is sent to the customer, messages_sent goes up
    by one and the errors counter is left as it was. *)
Theorem bridge_failure_still_sends :
  forall (c results : dict) (name : value) (sent : Z) (msg : string) (w w1 : world),
    c !! "name" = Some name ->
    results !! "messages_sent" = Some (VInt sent) ->
    _call_mcp_tool self "google_vertex_ai_send_prompt"
      (personalized_params c "we_miss_you" name) w
    = (Ok (error_result msg), w1) ->
    _generate_personalized_message self c "we_miss_you" w
    = (Ok (VStr "We miss you! Come back for 15% off!"), w1)
    /\ _run_we_miss_you_campaign_step self c results w
       = (Ok (<["messages_sent" := VInt (sent + 1)]> results),
          with_line w1 (sending_line name "We miss you! Come back for 15% off!"))
    /\ (<["messages_sent" := VInt (sent + 1)]> results) !! "errors"
       = results !! "errors".
Proof.
  intros c results name sent msg w w1 Hn Hs Hc.
  assert (Hgen : _generate_personalized_message self c "we_miss_you" w
                 = (Ok (VStr "We miss you! Come back for 15% off!"), w1)).
  { by rewrite (generate_personalized_message_run _ _ _ _ _ _ Hn Hc). }
  split; [exact Hgen|]. split; [|by rewrite lookup_insert_ne].
  unfold _run_we_miss_you_campaign_step.
  erewrite try_except_Ok; [reflexivity|].
  rewrite (bind_Ok _ _ _ _ _ Hgen).
  rewrite (bind_Ok _ _ _ _ _ (send_message_run _ _ _ _ Hn)).
  by rewrite (iadd_counter _ _ _ _ Hs).
Qed.

(** *** Recommendations *)

(** The recommendation call, by what the bridge returned. *)
Lemma get_ai_recommendations_run (c : dict) (d : dict) w w1 :
  _call_mcp_tool self "google_vertex_ai_send_prompt" (recommendation_params c) w
  = (Ok (VDict d), w1) ->
  (d !! "text" = None ->
     _get_ai_recommendations self c w = (Ok [], w1))
  /\ (forall t, d !! "text" = Some (VStr t) ->
        _get_ai_recommendations self c w = (Ok (recommendation_lines t), w1)).
Proof.
  intros Hc. unfold _get_ai_recommendations.
  rewrite (bind_Ok _ _ _ _ _ Hc). unfold get, dict_get, bind, ret.
  split; [intros ->|intros t ->]; reflexivity.
Qed.


(** Every line the recommendation call keeps is stripped and not empty. *)
Lemma recommendation_lines_nonempty text :
  Forall (fun r => r <> "") (recommendation_lines text).
Proof.
  unfold recommendation_lines. apply Forall_fmap, Forall_forall.
  intros r [Hr _]%list_elem_of_filter. simpl.
  by destruct (strip r).
Qed.

(** One iteration of the recommendation loop: an empty list. *)
Lemma recommendation_step_skip (c results : dict) w w1 :
  _get_ai_recommendations self c w = (Ok [], w1) ->
  _run_recommendation_campaign_step self c results w = (Ok results, w1).
Proof.
  intros Hrecs. unfold _run_recommendation_campaign_step.
  by rewrite (bind_Ok _ _ _ _ _ Hrecs).
Qed.

(** One iteration of the recommendation loop: a list that is not empty. *)
Lemma recommendation_step_send (c results : dict) recs name k w w1 :
  _get_ai_recommendations self c w = (Ok recs, w1) ->
  recs <> [] ->
  c !! "name" = Some name ->
  results !! "recommendations_sent" = Some (VInt k) ->
  _run_recommendation_campaign_step self c results w
  = (Ok (<["recommendations_sent" := VInt (k + 1)]> results),
     with_line w1 (sending_line name (recommendation_message name recs))).
Proof.
  intros Hrecs Hne Hn Hk. unfold _run_recommendation_campaign_step.
  rewrite (bind_Ok _ _ _ _ _ Hrecs).
  destruct recs as [|r recs]; [done|].
  unfold _generate_recommendation_message.
  erewrite bind_Ok by (by rewrite (bind_Ok _ _ _ _ _ (getitem_Some _ _ _ _ Hn))).
  rewrite (bind_Ok _ _ _ _ _ (send_message_run _ _ _ _ Hn)).
  by rewrite (iadd_counter _ _ _ _ Hk).
Qed.

(** The loop computes what a run of the campaign describes. *)
Lemma recommendation_run_sound customers w k w' :
  recommendation_run self customers w k w' ->
  forall (results : dict) k0,
    results !! "recommendations_sent" = Some (VInt k0) ->
    exists r',
      for_each customers (_run_recommendation_campaign_step self) results w
      = (Ok r', w')
      /\ r' !! "recommendations_sent" = Some (VInt (k0 + k))
      /\ forall key, key <> "recommendations_sent" -> r' !! key = results !! key.
Proof.
  induction 1 as [w|c cs w w1 k w' Hrecs _ IH|c cs w recs w1 name k w' Hrecs Hne Hn _ IH];
    intros results k0 Hk.
  - exists results. simpl. by rewrite Z.add_0_r.
  - destruct (IH results k0 Hk) as (r' & Hloop & Hk' & Hother).
    exists r'. cbn [for_each].
    by rewrite (bind_Ok _ _ _ _ _ (recommendation_step_skip c results w w1 Hrecs)).
  - destruct (IH (<["recommendations_sent" := VInt (k0 + 1)]> results) (k0 + 1))
      as (r' & Hloop & Hk' & Hother); [by rewrite lookup_insert_eq|].
    exists r'. cbn [for_each].
    rewrite (bind_Ok _ _ _ _ _
               (recommendation_step_send c results recs name k0 w w1 Hrecs Hne Hn Hk)).
    split; [done|]. split; [by rewrite Hk', Z.add_assoc|].
    intros key Hkey. by rewrite Hother, lookup_insert_ne.
Qed.



End Campaigns.

(** ** Concrete runs *)

(** The tool reports the score -0.5 exactly: not escalated, neutral. *)
Lemma sentiment_thresholds_at_minus_half :
  exists w1,
    @analyze_customer_sentiment (answers [VDict {[ "score" := VFloat (-0.5) ]}])
      __init__ "It was fine." w0
    = (Ok (not_escalated "neutral" (VFloat (-0.5))), w1).
Proof.
  exists_world
    (@analyze_customer_sentiment (answers [VDict {[ "score" := VFloat (-0.5) ]}])
       __init__ "It was fine." w0).
  refine (proj2 (proj2
    (@sentiment_thresholds (answers [VDict {[ "score" := VFloat (-0.5) ]}])
       __init__ "It was fine." w0 {[ "score" := VFloat (-0.5) ]} (VFloat (-0.5))
       (NFloat (-0.5)) _ _ _ _)) _ _).
  - vm_compute. reflexivity.
  - reflexivity.
  - reflexivity.
  - vm_compute. discriminate.
  - vm_compute. discriminate.
Defined.

(** The tool exits with code 1: the result has no score. *)
Lemma sentiment_without_score_on_failure :
  exists w1,
    @analyze_customer_sentiment (failing 1) __init__ "The tea was cold." w0
    = (Ok (not_escalated "neutral" VNone), w1).
Proof.
  exists_world (@analyze_customer_sentiment (failing 1) __init__ "The tea was cold." w0).
  refine (@sentiment_without_score (failing 1) __init__ "The tea was cold." w0
            {[ "error" := VStr "quota exceeded" ]} _ _ _).
  - vm_compute. reflexivity.
  - reflexivity.
Defined.




(** The tool exits with code 1 while the message for An is generated. *)
Lemma bridge_failure_still_sends_to_An :
  exists w1,
    @_run_we_miss_you_campaign_step (failing 1) __init__
      {[ "name" := VStr "An" ]}
      {[ "messages_sent" := VInt 0; "errors" := VInt 0 ]} w0
    = (Ok (<["messages_sent" := VInt 1]> {[ "messages_sent" := VInt 0; "errors" := VInt 0 ]}),
       with_line w1 "Sending to An: We miss you! Come back for 15% off!").
Proof.
  exists_world
    (@_call_mcp_tool (failing 1) __init__ "google_vertex_ai_send_prompt"
       (@personalized_params (failing 1) {[ "name" := VStr "An" ]} "we_miss_you"
          (VStr "An")) w0).
  refine (proj1 (proj2
    (@bridge_failure_still_sends (failing 1) __init__
       {[ "name" := VStr "An" ]} {[ "messages_sent" := VInt 0; "errors" := VInt 0 ]}
       (VStr "An") 0 "quota exceeded" w0 _ _ _ _))).
  - reflexivity.
  - reflexivity.
  - vm_compute. reflexivity.
Defined.

(** Scores -0.6, 0.3 and 0, as the tool would report them. *)
Example sentiment_minus_0_6 :
  @analyze_customer_sentiment (answers [VDict {[ "score" := float_literal (-0.6) ]}])
    __init__ "Too sweet." w0
  = (Ok (escalated (float_literal (-0.6))),
     World ["ALERT: Negative feedback detected: Too sweet."]
           [mcp_argv __init__ "google_vertex_ai_analyze_text_sentiment" "{}"] 0 0).
Proof. vm_compute. reflexivity. Qed.

Example sentiment_0_3 :
  (@analyze_customer_sentiment (answers [VDict {[ "score" := float_literal 0.3 ]}])
     __init__ "Nice place." w0).1
  = Ok (not_escalated "positive" (float_literal 0.3)).
Proof. vm_compute. reflexivity. Qed.

Example sentiment_0 :
  (@analyze_customer_sentiment (answers [VDict {[ "score" := VInt 0 ]}])
     __init__ "It is a cafe." w0).1
  = Ok (not_escalated "neutral" (VInt 0)).
Proof. vm_compute. reflexivity. Qed.

(** The report as shipped: [_get_sales_data] returns no transaction. *)
Example sales_report_without_transactions :
  exists report metrics w',
    @generate_sales_report offline __init__ "STORE-001" "daily" w0 = (Ok report, w')
    /\ report !! "metrics" = Some (VDict metrics)
    /\ metrics !! "total_revenue" = Some (VInt 0)
    /\ metrics !! "total_transactions" = Some (VInt 0)
    /\ metrics !! "average_transaction" = Some (VInt 0).
Proof.
  exists_report (@generate_sales_report offline __init__ "STORE-001" "daily" w0).
  repeat split; by_running.
Qed.

(** Amounts 10, 20 and 35: the average is the float nearest to 65/3,
    which prints as 21.666666666666668. *)
Example sales_report_10_20_35 :
  exists report metrics w',
    @generate_sales_report_body offline __init__
      [ {[ "amount" := VInt 10 ]}; {[ "amount" := VInt 20 ]}; {[ "amount" := VInt 35 ]} ]
      "STORE-001" "daily" w0 = (Ok report, w')
    /\ report !! "metrics" = Some (VDict metrics)
    /\ metrics !! "total_revenue" = Some (VInt 65)
    /\ metrics !! "total_transactions" = Some (VInt 3)
    /\ metrics !! "average_transaction" = Some (float_literal 21.666666666666668)
    /\ float_literal 21.666666666666668 = VFloat (6098624495397547 # 2 ^ 48).
Proof.
  exists_report
    (@generate_sales_report_body offline __init__
       [ {[ "amount" := VInt 10 ]}; {[ "amount" := VInt 20 ]}; {[ "amount" := VInt 35 ]} ]
       "STORE-001" "daily" w0).
  repeat split; by_running.
Qed.

(** Float amounts 0.1 and 0.2: the revenue is the rounded float sum,
    which prints as 0.30000000000000004 and is not the float 0.3. *)
Example sales_report_of_floats :
  exists report metrics w',
    @generate_sales_report_body offline __init__
      [ {[ "amount" := float_literal 0.1 ]}; {[ "amount" := float_literal 0.2 ]} ]
      "STORE-001" "daily" w0 = (Ok report, w')
    /\ report !! "metrics" = Some (VDict metrics)
    /\ metrics !! "total_revenue" = Some (float_literal 0.30000000000000004)
    /\ float_literal 0.30000000000000004 <> float_literal 0.3
    /\ metrics !! "average_transaction" = Some (float_literal 0.15000000000000002).
Proof.
  exists_report
    (@generate_sales_report_body offline __init__
       [ {[ "amount" := float_literal 0.1 ]}; {[ "amount" := float_literal 0.2 ]} ]
       "STORE-001" "daily" w0).
  repeat split; try by_running.
  vm_compute. discriminate.
Qed.

(** A batch of three with names: the second payload is a JSON list, so
    generating the second message raises AttributeError, which is caught
    and counted; the third call fails to start and the default text is
    sent. *)
Example we_miss_you_batch_of_three :
  exists results w',
    @_run_we_miss_you_campaign_body
      (answers [VDict {[ "text" := VStr "Hello An" ]}; VList []]) __init__
      [ {[ "name" := VStr "An" ]}; {[ "name" := VStr "Binh" ]}; {[ "name" := VStr "Chi" ]} ]
      w0 = (Ok results, w')
    /\ results !! "messages_sent" = Some (VInt 2)
    /\ results !! "errors" = Some (VInt 1)
    /\ printed w'
       = [ "Sending to An: Hello An";
           "Error sending to Binh: 'list' object has no attribute 'get'";
           "Exception calling MCP tool: [Errno 2] No such file or directory: 'manus-mcp-cli'";
           "Sending to Chi: We miss you! Come back for 15% off!" ].
Proof.
  exists_outcome
    (@_run_we_miss_you_campaign_body
       (answers [VDict {[ "text" := VStr "Hello An" ]}; VList []]) __init__
       [ {[ "name" := VStr "An" ]}; {[ "name" := VStr "Binh" ]}; {[ "name" := VStr "Chi" ]} ]
       w0).
  repeat split; by_running.
Qed.

(** A batch of three whose second record has no name: An is served, the
    campaign then raises, and Chi is never reached. *)
Example we_miss_you_nameless_in_the_middle :
  @_run_we_miss_you_campaign_body offline __init__
    [ {[ "name" := VStr "An" ]}; {[ "phone" := VStr "0901234567" ]};
      {[ "name" := VStr "Chi" ]} ] w0
  = (Raise (KeyError "name"),
     World [ "Exception calling MCP tool: [Errno 2] No such file or directory: 'manus-mcp-cli'";
             "Sending to An: We miss you! Come back for 15% off!" ]
           [mcp_argv __init__ "google_vertex_ai_send_prompt" "{}"] 0 0).
Proof. vm_compute. reflexivity. Qed.

(** Three recent customers, one of whom gets recommendations. *)
Example recommendation_batch_of_three :
  exists results w',
    @_run_recommendation_campaign_body
      (answers [ VDict {[ "text" := VStr ("Taro" ++ nl ++ " Matcha ") ]};
                 VDict {[ "text" := VStr ("  " ++ nl) ]};
                 VDict ∅ ])
      __init__
      [ {[ "name" := VStr "An" ]}; {[ "name" := VStr "Binh" ]}; {[ "name" := VStr "Chi" ]} ]
      w0 = (Ok results, w')
    /\ results !! "recommendations_sent" = Some (VInt 1)
    /\ results !! "target_count" = Some (VInt 3)
    /\ printed w'
       = [ "Sending to An: Hi An! Based on your taste, you might love: Taro, Matcha" ].
Proof.
  exists_outcome
    (@_run_recommendation_campaign_body
       (answers [ VDict {[ "text" := VStr ("Taro" ++ nl ++ " Matcha ") ]};
                  VDict {[ "text" := VStr ("  " ++ nl) ]};
                  VDict ∅ ])
       __init__
       [ {[ "name" := VStr "An" ]}; {[ "name" := VStr "Binh" ]}; {[ "name" := VStr "Chi" ]} ]
       w0).
  repeat split; by_running.
Qed.

(** A purchase of 12.75 on a fresh profile, as a ledger would return it. *)
Example purchase_on_fresh_profile :
  exists c' w',
    @track_purchase_body offline __init__
      (fresh_profile "CUST-0000ABCD" {[ "name" := VStr "An" ]} "2024-04-30T18:30:00")
      {[ "total_amount" := VFloat 12.75 ]} w0 = (Ok c', w')
    /\ c' !! "total_visits" = Some (VInt 1)
    /\ c' !! "total_spent" = Some (float_literal 12.75)
    /\ c' !! "loyalty_points" = Some (VInt 112)
    /\ c' !! "last_visit" = Some (VStr "2024-05-01T09:00:00").
Proof.
  exists_outcome
    (@track_purchase_body offline __init__
       (fresh_profile "CUST-0000ABCD" {[ "name" := VStr "An" ]} "2024-04-30T18:30:00")
       {[ "total_amount" := VFloat 12.75 ]} w0).
  repeat split; by_running.
Qed.

(** The demo of the script: one sign-up while the tool client is absent. *)
Example capture_demo :
  exists c w',
    @capture_customer offline __init__
      {[ "name" := VStr "Nguyen Van A"; "phone" := VStr "+84901234567";
         "email" := VStr "nguyen@example.com";
         "favorite_drink" := VStr "Taro Milk Tea" ]} w0 = (Ok c, w')
    /\ c !! "id" = Some (VStr "CUST-3FA85F64")
    /\ c !! "loyalty_points" = Some (VInt 100)
    /\ printed w'
       = [ "Exception calling MCP tool: [Errno 2] No such file or directory: 'manus-mcp-cli'";
           "Sending to Nguyen Van A: Welcome to Boba Club, Nguyen Van A! You've earned 100 points!" ].
Proof.
  exists_outcome
    (@capture_customer offline __init__
       {[ "name" := VStr "Nguyen Van A"; "phone" := VStr "+84901234567";
          "email" := VStr "nguyen@example.com";
          "favorite_drink" := VStr "Taro Milk Tea" ]} w0).
  repeat split; by_running.
Qed.

(** * Further properties of the agent *)

Lemma with_lines_nil w : with_lines w [] = w.
Proof. destruct w. unfold with_lines. simpl. by rewrite app_nil_r. Qed.

Lemma with_lines_cons w line lines :
  with_lines (with_line w line) lines = with_lines w (line :: lines).
Proof. unfold with_lines, with_line. simpl. by rewrite <- app_assoc. Qed.

Lemma with_lines_snoc w lines line :
  with_line (with_lines w lines) line = with_lines w (lines ++ [line]).
Proof. unfold with_lines, with_line. simpl. by rewrite <- app_assoc. Qed.

Lemma for_each_app {A S} (l1 l2 : list A) (body : A -> S -> M S) s w :
  for_each (l1 ++ l2) body s w
  = bind (for_each l1 body s) (fun s' => for_each l2 body s') w.
Proof.
  revert s w. induction l1 as [|x l1 IH]; intros s w; [reflexivity|].
  simpl. unfold bind in *.
  destruct (body x s w) as [[s'|e] w1]; [apply IH|reflexivity].
Qed.

(** ** The re-engagement campaign, customer by customer *)

Section Reengagement.
Context {E : Env}.
Variable self : BobaBotAgent.

(** X1.  When every targeted customer record has a name, the
    re-engagement campaign returns a result: target_count is the number
    of customers and messages_sent + errors equals it, whatever the tool
    answers. *)
Theorem we_miss_you_counters_add_up :
  forall (customers : list dict) (w : world),
    Forall has_name customers ->
    exists (results : dict) (w' : world) (sent errors : Z),
      _run_we_miss_you_campaign_body self customers w = (Ok results, w')
      /\ results !! "target_count" = Some (VInt (Z.of_nat (length customers)))
      /\ results !! "messages_sent" = Some (VInt sent)
      /\ results !! "errors" = Some (VInt errors)
      /\ sent + errors = Z.of_nat (length customers).
Proof.
  intros customers w Hall.
  destruct (we_miss_you_accounting self customers w Hall)
    as (results & w' & sent & errors & Hrun & Hs & He & Hsum & Ht).
  by exists results, w', sent, errors.
Qed.

(** X2.  One iteration of the re-engagement loop, by what the bridge
    returned for the customer.  A dict: the message is its text, or the
    default text when it has none, rendered as a string; it is sent and
    messages_sent goes up by one.  Anything else (a JSON list, string,
    number or null): reading the text raises AttributeError, the handler
    logs it against the customer, errors goes up by one and no message
    is sent. *)
Theorem we_miss_you_step_by_payload :
  forall (c results : dict) (name : value) (sent errors : Z) (v : value)
         (w w1 : world),
    c !! "name" = Some name ->
    results !! "messages_sent" = Some (VInt sent) ->
    results !! "errors" = Some (VInt errors) ->
    _call_mcp_tool self "google_vertex_ai_send_prompt"
      (personalized_params c "we_miss_you" name) w = (Ok v, w1) ->
    _run_we_miss_you_campaign_step self c results w =
      match v with
      | VDict d =>
          (Ok (<["messages_sent" := VInt (sent + 1)]> results),
           with_line w1
             (sending_line name
                (py_str (default (VStr "We miss you! Come back for 15% off!")
                                 (d !! "text")))))
      | _ =>
          (Ok (<["errors" := VInt (errors + 1)]> results),
           with_line w1 (error_line name (AttributeError v "get")))
      end.
Proof.
  intros c results name sent errors v w w1 Hn Hs He Hc.
  unfold _run_we_miss_you_campaign_step.
  destruct v as [| | | | | |l|d];
    try (erewrite try_except_Raise;
           [|erewrite bind_Raise; [reflexivity|];
             by rewrite (generate_personalized_message_run _ _ _ _ _ _ _ Hn Hc)];
         rewrite (bind_Ok _ _ _ _ _ (getitem_Some _ _ _ _ Hn));
         rewrite (bind_Ok _ _ _ _ _ (print_run _ _));
         by rewrite (iadd_counter _ _ _ _ He)).
  erewrite try_except_Ok; [reflexivity|].
  erewrite bind_Ok
    by (by rewrite (generate_personalized_message_run _ _ _ _ _ _ _ Hn Hc)).
  rewrite (bind_Ok _ _ _ _ _ (send_message_run _ _ _ _ Hn)).
  by rewrite (iadd_counter _ _ _ _ Hs).
Qed.

End Reengagement.

(** ** The birthday campaign *)

Section Birthday.
Context {E : Env}.
Variable self : BobaBotAgent.

(** One iteration of the birthday loop for a customer who has a name. *)
Lemma birthday_step_run (c results : dict) name k w :
  c !! "name" = Some name ->
  results !! "rewards_sent" = Some (VInt k) ->
  _run_birthday_campaign_step c results w
  = (Ok (<["rewards_sent" := VInt (k + 1)]> results), with_line w (birthday_line c)).
Proof.
  intros Hn Hk. unfold _run_birthday_campaign_step, _generate_birthday_message.
  erewrite bind_Ok.
  2:{ rewrite (bind_Ok _ _ _ _ _ (getitem_Some _ _ _ _ Hn)).
      erewrite bind_Ok by (apply getitem_Some; reflexivity). reflexivity. }
  rewrite (bind_Ok _ _ _ _ _ (send_message_run _ _ _ _ Hn)).
  rewrite (iadd_counter _ _ _ _ Hk).
  unfold birthday_line, birthday_message, sending_line, dict_get. by rewrite Hn.
Qed.

(** One iteration of the birthday loop for a record without a name. *)
Lemma birthday_step_nameless (c results : dict) w :
  c !! "name" = None ->
  _run_birthday_campaign_step c results w = (Raise (KeyError "name"), w).
Proof.
  intros Hn. unfold _run_birthday_campaign_step, _generate_birthday_message.
  apply bind_Raise, bind_Raise. by apply getitem_None.
Qed.

Lemma birthday_loop customers : forall (results : dict) k w,
  Forall has_name customers ->
  results !! "rewards_sent" = Some (VInt k) ->
  exists r',
    for_each customers _run_birthday_campaign_step results w
    = (Ok r', with_lines w (birthday_line <$> customers))
    /\ r' !! "rewards_sent" = Some (VInt (k + Z.of_nat (length customers)))
    /\ forall key, key <> "rewards_sent" -> r' !! key = results !! key.
Proof.
  induction customers as [|c customers IH]; intros results k w Hall Hk.
  - exists results. simpl. rewrite with_lines_nil, Z.add_0_r. done.
  - apply Forall_cons in Hall as [[name Hn] Hall].
    destruct (IH (<["rewards_sent" := VInt (k + 1)]> results) (k + 1)
                 (with_line w (birthday_line c)) Hall)
      as (r' & Hloop & Hk' & Hother); [by rewrite lookup_insert_eq|].
    exists r'. cbn [for_each].
    rewrite (bind_Ok _ _ _ _ _ (birthday_step_run c results name k w Hn Hk)).
    rewrite Hloop, with_lines_cons. split; [done|].
    split; [rewrite Hk'; f_equal; f_equal; simpl length; lia|].
    intros key Hkey. by rewrite Hother, lookup_insert_ne.
Qed.

(** X3.  The birthday campaign over customers that all have a name
    returns a result whose rewards_sent and target_count both equal the
    number of customers.  It prints exactly one line per customer, in
    list order, offering the favourite drink or Any drink when the
    record has none, and does nothing else: no tool call, no clock
    read. *)
Theorem birthday_campaign_rewards_everyone :
  forall (customers : list dict) (w : world),
    Forall has_name customers ->
    exists results : dict,
      _run_birthday_campaign_body customers w
      = (Ok results, with_lines w (birthday_line <$> customers))
      /\ results !! "rewards_sent" = Some (VInt (Z.of_nat (length customers)))
      /\ results !! "target_count" = Some (VInt (Z.of_nat (length customers))).
Proof.
  intros customers w Hall. unfold _run_birthday_campaign_body.
  match goal with |- context [for_each _ _ ?r] =>
    destruct (birthday_loop customers r 0 w Hall eq_refl)
      as (r' & Hloop & Hk & Hother) end.
  exists r'. split; [done|]. split; [done|]. by rewrite Hother.
Qed.

(** X4.  The birthday campaign has no failure isolation: at the first
    customer record without a name it raises KeyError.  The customers
    before it have been served, no result is returned and the customers
    after it are never reached. *)
Theorem birthday_campaign_aborts_without_name :
  forall (served : list dict) (c : dict) (rest : list dict) (w : world),
    Forall has_name served ->
    c !! "name" = None ->
    _run_birthday_campaign_body (served ++ c :: rest) w
    = (Raise (KeyError "name"), with_lines w (birthday_line <$> served)).
Proof.
  intros served c rest w Hall Hn. unfold _run_birthday_campaign_body.
  rewrite for_each_app.
  match goal with |- context [for_each served _ ?r] =>
    destruct (birthday_loop served r 0 w Hall eq_refl)
      as (r' & Hloop & _ & _) end.
  rewrite (bind_Ok _ _ _ _ _ Hloop). cbn [for_each].
  apply bind_Raise. by apply birthday_step_nameless.
Qed.

End Birthday.

(** ** Purchases on a stored profile *)

Lemma Qeq_bool_inject_Z a b : Qeq_bool (inject_Z a) (inject_Z b) = Z.eqb a b.
Proof. unfold Qeq_bool. simpl. by rewrite !Z.mul_1_r. Qed.

Section PurchaseEffects.
Context {E : Env}.
Variable self : BobaBotAgent.

(** X5.  On a stored profile and a purchase whose amount is a finite
    number a, the update that [track_purchase] performs does one of two
    things.  When the amount can be added to the amount spent, it
    returns the profile with one more visit, the sum as the amount spent
    (a float sum is rounded), int(a) added to the loyalty balance and
    last_visit set to the clock, every other field as it was.  int(a)
    truncates toward zero: it is floor(a) for a >= 0, the balance is not
    lowered when a > -1 and is lowered when a <= -1.  When the amount
    cannot be added, because an integer is beyond the range of a float,
    it raises OverflowError, and the world is as it was. *)
Theorem track_purchase_body_updates :
  forall (c purchase_data : dict) (visits : Z) (spent : num) (points : Z)
         (a : num) (w : world),
    profile c visits spent points ->
    purchase_of purchase_data a ->
    match number_add (Finite spent) (Finite a) with
    | Ok total =>
        exists (c' : dict) (w' : world),
          track_purchase_body self c purchase_data w = (Ok c', w')
          /\ c' !! "total_visits" = Some (VInt (visits + 1))
          /\ c' !! "total_spent" = Some (of_number total)
          /\ c' !! "loyalty_points" = Some (VInt (points + num_int a))
          /\ ((0 <= num_Q a)%Q -> num_int a = Qfloor (num_Q a))
          /\ ((-1 < num_Q a)%Q -> points <= points + num_int a)
          /\ ((num_Q a <= -1)%Q -> points + num_int a < points)
          /\ c' !! "last_visit" = Some (VStr (now_isoformat (clock_reads w)))
          /\ forall key,
               key <> "total_visits" -> key <> "total_spent" ->
               key <> "loyalty_points" -> key <> "last_visit" ->
               c' !! key = c !! key
    | Raise e => track_purchase_body self c purchase_data w = (Raise e, w)
    end.
Proof.
  intros c purchase_data visits spent points a w Hprofile Hpurchase.
  destruct (number_add (Finite spent) (Finite a)) as [total|e] eqn:Htotal.
  - destruct (track_purchase_body_run self c purchase_data _ _ _ a total w
                Hprofile Hpurchase Htotal) as (c' & w' & Hrun & ->).
    eexists _, w'. split; [exact Hrun|].
    destruct (num_int_sign a) as [Hge Hlt].
    split; [rewrite !lookup_insert_ne by done; by rewrite lookup_insert_eq|].
    split; [rewrite !lookup_insert_ne by done; by rewrite lookup_insert_eq|].
    split; [by rewrite lookup_insert_eq|].
    split; [apply num_int_floor|].
    split; [intros H; specialize (Hge H); lia|].
    split; [intros H; specialize (Hlt H); lia|].
    split; [rewrite !lookup_insert_ne by done; by rewrite lookup_insert_eq|].
    intros key H1 H2 H3 H4. by rewrite !lookup_insert_ne by done.
  - unfold track_purchase_body.
    by rewrite (track_purchase_in_place_overflow self c purchase_data _ _ _ a e w
                  Hprofile Hpurchase Htotal).
Qed.

(** X6.  On a stored profile, a purchase without the key total_amount
    makes the update raise KeyError at its second statement.  By then
    the first statement has counted the visit on the profile object,
    which keeps it: that is the only effect, the clock is not read, the
    ledger is not called and nothing is printed. *)
Theorem track_purchase_without_amount :
  forall (c purchase_data : dict) (visits : Z) (spent : num) (points : Z)
         (w : world),
    profile c visits spent points ->
    purchase_data !! "total_amount" = None ->
    track_purchase_in_place self purchase_data c w
    = (Raise (KeyError "total_amount"), <["total_visits" := VInt (visits + 1)]> c, w)
    /\ track_purchase_body self c purchase_data w = (Raise (KeyError "total_amount"), w).
Proof.
  intros c purchase_data visits spent points w
         [Hid Hname Hvisits (t & Hspent & Ht) Hpoints] Hamount.
  assert (H : track_purchase_in_place self purchase_data c w
              = (Raise (KeyError "total_amount"),
                 <["total_visits" := VInt (visits + 1)]> c, w)).
  { unfold track_purchase_in_place.
    erewrite upd_bind_Ok
      by (eapply upd_iadd_item_run;
          [exact Hvisits|reflexivity|reflexivity|reflexivity|reflexivity]).
    apply upd_bind_Raise.
    eapply upd_iadd_item_rhs_raises; [by rewrite lookup_insert_ne|].
    by apply getitem_None. }
  split; [exact H|]. unfold track_purchase_body. by rewrite H.
Qed.

(** X21.  On a stored profile, a purchase whose total_amount is present
    but not a number (a string, say) makes the update raise TypeError at
    its second statement, with the message of the in-place addition.
    The visit is counted on the profile object by then, and nothing else
    has happened. *)
Theorem track_purchase_amount_not_a_number :
  forall (c purchase_data : dict) (visits : Z) (spent : num) (points : Z)
         (t v : value) (w : world),
    profile c visits spent points ->
    c !! "total_spent" = Some t ->
    purchase_data !! "total_amount" = Some v ->
    as_number v = None ->
    track_purchase_in_place self purchase_data c w
    = (Raise (TypeError ("unsupported operand type(s) for +=: '" ++ type_name t
                         ++ "' and '" ++ type_name v ++ "'")),
       <["total_visits" := VInt (visits + 1)]> c, w).
Proof.
  intros c purchase_data visits spent points t v w
         [Hid Hname Hvisits (t' & Hspent & Ht) Hpoints] Hspent' Hamount Hv.
  rewrite Hspent in Hspent'. injection Hspent' as ->.
  unfold track_purchase_in_place.
  erewrite upd_bind_Ok
    by (eapply upd_iadd_item_run;
        [exact Hvisits|reflexivity|reflexivity|reflexivity|reflexivity]).
  apply upd_bind_Raise. unfold upd_iadd_item.
  rewrite (upd_bind_Ok _ _ _ _ _ _ _ eq_refl).
  erewrite upd_bind_Ok.
  2:{ apply upd_lift_run, getitem_Some. rewrite lookup_insert_ne by done. exact Hspent. }
  rewrite (upd_bind_Ok _ _ _ _ _ _ _ (upd_lift_run _ _ _ _ _ (getitem_Some _ _ _ _ Hamount))).
  apply upd_bind_Raise, upd_lift_run.
  unfold py_iadd, py_add_with. by rewrite (as_number_num _ _ Ht), Hv.
Qed.

Lemma py_in_ints_milestones v :
  py_in_ints (VInt v) [5; 10; 25; 50; 100] = true <-> In v [5; 10; 25; 50; 100].
Proof.
  unfold py_in_ints. simpl. rewrite !Qeq_bool_inject_Z.
  rewrite !orb_true_iff, !Z.eqb_eq. intuition congruence.
Qed.

(** For a profile whose visit count is the integer v, the milestone
    check prints its notice exactly when v is one of 5, 10, 25, 50, 100. *)
Lemma check_milestone_rewards_run (c : dict) (name : value) (v : Z) (w : world) :
  c !! "name" = Some name ->
  c !! "total_visits" = Some (VInt v) ->
  (In v [5; 10; 25; 50; 100] ->
     _check_milestone_rewards c w = (Ok tt, with_line w (milestone_line name v)))
  /\ (~ In v [5; 10; 25; 50; 100] ->
        _check_milestone_rewards c w = (Ok tt, w)).
Proof.
  intros Hn Hv. unfold _check_milestone_rewards.
  rewrite (bind_Ok _ _ _ _ _ (getitem_Some _ _ _ _ Hv)).
  split; intros Hin.
  - apply py_in_ints_milestones in Hin. rewrite Hin.
    rewrite (bind_Ok _ _ _ _ _ (getitem_Some _ _ _ _ Hn)).
    by rewrite (bind_Ok _ _ _ _ _ (getitem_Some _ _ _ _ Hv)).
  - destruct (py_in_ints (VInt v) [5; 10; 25; 50; 100]) eqn:Hb; [|done].
    by apply py_in_ints_milestones in Hb.
Qed.

(** X7.  On a stored profile and a purchase whose amount can be added
    to the amount spent, the purchase that brings the integer visit
    count to 5, 10, 25, 50 or 100 prints the milestone notice, after the
    ledger update and as the last output of [track_purchase]; a purchase
    that brings it to any other count prints no notice.  A purchase
    whose amount cannot be added raises and prints nothing. *)
Theorem purchase_milestone_notice :
  forall (c purchase_data : dict) (name : value) (visits : Z) (spent : num)
         (points : Z) (a : num) (w : world),
    profile c visits spent points ->
    c !! "name" = Some name ->
    purchase_of purchase_data a ->
    match number_add (Finite spent) (Finite a) with
    | Ok _ =>
        exists (c' : dict) (w2 w' : world),
          track_purchase_body self c purchase_data w = (Ok c', w')
          /\ _update_customer_in_sheets self c' (after_clock_read w) = (Ok tt, w2)
          /\ (In (visits + 1) [5; 10; 25; 50; 100] ->
                w' = with_line w2 (milestone_line name (visits + 1)))
          /\ (~ In (visits + 1) [5; 10; 25; 50; 100] -> w' = w2)
    | Raise e => track_purchase_body self c purchase_data w = (Raise e, w)
    end.
Proof.
  intros c purchase_data name visits spent points a w Hprofile Hn Hpurchase.
  destruct (number_add (Finite spent) (Finite a)) as [total|e] eqn:Htotal.
  2:{ unfold track_purchase_body.
      by rewrite (track_purchase_in_place_overflow self c purchase_data _ _ _ a e w
                    Hprofile Hpurchase Htotal). }
  rewrite (track_purchase_body_steps self c purchase_data _ _ _ a total w
             Hprofile Hpurchase Htotal).
  set (c' := <["loyalty_points" := _]> _).
  assert (Hid : is_Some (c' !! "id")).
  { subst c'. rewrite !lookup_insert_ne by done. exact (profile_id _ _ _ _ Hprofile). }
  assert (Hn' : c' !! "name" = Some name).
  { subst c'. by rewrite !lookup_insert_ne by done. }
  assert (Hv' : c' !! "total_visits" = Some (VInt (visits + 1))).
  { subst c'. rewrite !lookup_insert_ne by done. by rewrite lookup_insert_eq. }
  destruct (update_customer_returns self c' (after_clock_read w) Hid)
    as (w2 & Hupd & _ & _).
  rewrite (bind_Ok _ _ _ _ _ Hupd).
  destruct (check_milestone_rewards_run c' name (visits + 1) w2 Hn' Hv')
    as [Hyes Hno].
  destruct (decide (In (visits + 1) [5; 10; 25; 50; 100])) as [Hin|Hin].
  - rewrite (bind_Ok _ _ _ _ _ (Hyes Hin)).
    exists c', w2, (with_line w2 (milestone_line name (visits + 1))).
    split; [reflexivity|]. split; [exact Hupd|]. split; [done|]. by intros [].
  - rewrite (bind_Ok _ _ _ _ _ (Hno Hin)).
    exists c', w2, w2.
    split; [reflexivity|]. split; [exact Hupd|]. split; [by intros ?|done].
Qed.

End PurchaseEffects.

(** ** The bridge and its callers on malformed answers *)

Ltac effects_of_call :=
  split; [reflexivity|]; split; [reflexivity|]; split;
  [ first [left; reflexivity | right; eexists; split; reflexivity]
  | first [ left; reflexivity
          | right; eexists; split;
            [reflexivity | first [left; reflexivity | right; reflexivity]] ] ].

Section Malformed.
Context {E : Env}.
Variable self : BobaBotAgent.

(** X8.  One bridge call starts at most one process (there is no
    retry), with the command line of the tool, and reads neither the
    clock nor a uuid.  It prints at most one line, and only together
    with an error-tagged result that carries the same message. *)
Theorem call_mcp_tool_effects :
  forall (tool : string) (params : dict) (w : world),
    exists (v : value) (w' : world),
      _call_mcp_tool self tool params w = (Ok v, w')
      /\ clock_reads w' = clock_reads w
      /\ uuids_drawn w' = uuids_drawn w
      /\ (spawned w' = spawned w
          \/ exists params_json,
               json_dumps (VDict params) = Ok params_json
               /\ spawned w' = (spawned w ++ [mcp_argv self tool params_json])%list)
      /\ (printed w' = printed w
          \/ exists msg,
               v = error_result msg
               /\ (printed w' = printed (with_line w ("MCP tool error: " ++ msg))
                   \/ printed w' = printed (with_line w ("Exception calling MCP tool: " ++ msg)))).
Proof.
  intros tool params w.
  unfold _call_mcp_tool, try_except, bind, lift, run, print, ret.
  destruct (json_dumps (VDict params)) as [params_json|e1]; simpl.
  - destruct (subprocess_run _ _) as [cp|e2]; simpl.
    + destruct (decide (returncode cp = 0)); simpl.
      * destruct (json_loads (stdout cp)) as [payload|e3]; simpl;
          eexists _, _; (split; [reflexivity|]); simpl; effects_of_call.
      * eexists _, _. split; [reflexivity|]. simpl. effects_of_call.
    + eexists _, _. split; [reflexivity|]. simpl. effects_of_call.
  - eexists _, _. split; [reflexivity|]. simpl. effects_of_call.
Qed.

(** X9.  In the recommendation campaign, a customer for whom the bridge
    returns a dict without text (an error-tagged result is one) is
    skipped silently: nothing is sent, the counter is unchanged, and the
    record is not even required to have a name. *)
Theorem recommendation_step_skips_without_text :
  forall (c results d : dict) (w w1 : world),
    _call_mcp_tool self "google_vertex_ai_send_prompt" (recommendation_params c) w
    = (Ok (VDict d), w1) ->
    d !! "text" = None ->
    _run_recommendation_campaign_step self c results w = (Ok results, w1).
Proof.
  intros c results d w w1 Hc Hd.
  apply recommendation_step_skip.
  by apply (get_ai_recommendations_run self c d w w1 Hc).
Qed.

(** X10.  The recommendation campaign has no failure isolation: when the
    payload for a customer is not a dict (a JSON list, string, number or
    null), reading its text raises AttributeError and the campaign
    returns no result.  The customers before it have been served and
    the ones after it are never reached. *)
Theorem recommendation_campaign_aborts_on_payload :
  forall (served : list dict) (c : dict) (rest : list dict) (k : Z) (v : value)
         (w w1 w2 : world),
    recommendation_run self served w k w1 ->
    _call_mcp_tool self "google_vertex_ai_send_prompt" (recommendation_params c) w1
    = (Ok v, w2) ->
    (forall d, v <> VDict d) ->
    _run_recommendation_campaign_body self (served ++ c :: rest) w
    = (Raise (AttributeError v "get"), w2).
Proof.
  intros served c rest k v w w1 w2 Hrun Hc Hv.
  unfold _run_recommendation_campaign_body. rewrite for_each_app.
  match goal with |- context [for_each served _ ?r] =>
    destruct (recommendation_run_sound self served w k w1 Hrun r 0 eq_refl)
      as (r' & Hloop & _ & _) end.
  rewrite (bind_Ok _ _ _ _ _ Hloop). cbn [for_each].
  apply bind_Raise. unfold _run_recommendation_campaign_step.
  apply bind_Raise. unfold _get_ai_recommendations.
  rewrite (bind_Ok _ _ _ _ _ Hc).
  apply bind_Raise.
  destruct v as [| | | | | |l|d]; try reflexivity. by destruct (Hv d).
Qed.

(** X11.  When the sentiment tool answers with a dict whose score is
    present but not a number (a JSON null or string, say), the first
    comparison raises TypeError: the responder returns nothing, and it
    has neither alerted the manager nor generated an apology.  This
    differs from a missing score, which is read as 0. *)
Theorem sentiment_score_not_a_number :
  forall (feedback_text : string) (sentiment : dict) (v : value) (w w1 : world),
    _call_mcp_tool self "google_vertex_ai_analyze_text_sentiment"
      (sentiment_params feedback_text) w = (Ok (VDict sentiment), w1) ->
    sentiment !! "score" = Some v ->
    as_number v = None ->
    analyze_customer_sentiment self feedback_text w
    = (Raise (TypeError ("'<' not supported between instances of '"
                         ++ type_name v ++ "' and 'float'")), w1).
Proof.
  intros feedback_text sentiment v w w1 Hc Hscore Hnum.
  unfold analyze_customer_sentiment.
  rewrite (bind_Ok _ _ _ _ _ Hc).
  unfold get, dict_get, bind, ret, py_lt.
  rewrite Hscore. simpl. rewrite Hnum. reflexivity.
Qed.

(** X12.  When the sentiment tool answers with a payload that is not a
    dict, reading the score raises AttributeError: the responder
    returns nothing and prints nothing. *)
Theorem sentiment_payload_not_a_dict :
  forall (feedback_text : string) (v : value) (w w1 : world),
    _call_mcp_tool self "google_vertex_ai_analyze_text_sentiment"
      (sentiment_params feedback_text) w = (Ok v, w1) ->
    (forall d, v <> VDict d) ->
    analyze_customer_sentiment self feedback_text w
    = (Raise (AttributeError v "get"), w1).
Proof.
  intros feedback_text v w w1 Hc Hv.
  unfold analyze_customer_sentiment.
  rewrite (bind_Ok _ _ _ _ _ Hc).
  apply bind_Raise.
  destruct v as [| | | | | |l|d]; try reflexivity. by destruct (Hv d).
Qed.

(** X20.  [json.loads] accepts NaN, Infinity and -Infinity, and such a
    score is a float the comparisons accept.  A score of -Infinity
    escalates like any score below -0.5 and a score of Infinity is
    positive; NaN is neither below -0.5 nor above 0, so it is reported
    neutral, with no alert. *)
Theorem sentiment_score_not_finite :
  forall (feedback_text : string) (sentiment : dict) (x : nonfinite) (w w1 : world),
    _call_mcp_tool self "google_vertex_ai_analyze_text_sentiment"
      (sentiment_params feedback_text) w = (Ok (VDict sentiment), w1) ->
    sentiment !! "score" = Some (VNonFinite x) ->
    analyze_customer_sentiment self feedback_text w =
      match x with
      | NegInf =>
          (Ok (escalated (VNonFinite NegInf)),
           with_line w1 ("ALERT: Negative feedback detected: " ++ feedback_text))
      | PosInf => (Ok (not_escalated "positive" (VNonFinite PosInf)), w1)
      | NotANumber => (Ok (not_escalated "neutral" (VNonFinite NotANumber)), w1)
      end.
Proof.
  intros feedback_text sentiment x w w1 Hc Hscore.
  unfold analyze_customer_sentiment.
  rewrite (bind_Ok _ _ _ _ _ Hc).
  unfold get, dict_get, bind, ret, py_lt, py_gt, _alert_manager, print.
  rewrite Hscore. by destruct x.
Qed.

End Malformed.

(** ** Reports, sign-ups and the shipped stubs *)

Section ReportsAndSignups.
Context {E : Env}.
Variable self : BobaBotAgent.

(** X13.  When a transaction has no amount, [generate_sales_report]
    raises KeyError as soon as the sum reaches it: the clock has been
    read for the report, but no report is stored and nothing is
    printed.  The sum reaches it unless adding the amounts before it
    has raised already, which happens only when an integer beyond the
    range of a float has to be added to a float. *)
Theorem sales_report_missing_amount :
  forall (summed : list dict) (amounts : list num) (sale : dict) (rest : list dict)
         (store_id period : string) (w : world),
    Forall2 has_amount summed amounts ->
    sale !! "amount" = None ->
    generate_sales_report_body self (summed ++ sale :: rest) store_id period w
    = (Raise (match sum_numbers amounts with
              | Ok _ => KeyError "amount"
              | Raise e => e
              end),
       after_clock_read w).
Proof.
  intros summed amounts sale rest store_id period w Hsummed Hsale.
  unfold generate_sales_report_body.
  unfold bind at 1. unfold datetime_now_isoformat at 1.
  change (World (printed w) (spawned w) (S (clock_reads w)) (uuids_drawn w))
    with (after_clock_read w).
  apply bind_Raise.
  unfold sum_amounts. rewrite for_each_app.
  pose proof (sum_amounts_run summed amounts (after_clock_read w) Hsummed) as Hsum.
  unfold sum_amounts in Hsum.
  destruct (sum_numbers amounts) as [total|e].
  - rewrite (bind_Ok _ _ _ _ _ Hsum).
    cbn [for_each]. apply bind_Raise, bind_Raise. by apply getitem_None.
  - by rewrite (bind_Raise _ _ _ _ _ Hsum).
Qed.

(** X14.  When every amount is an integer, total_revenue is the exact
    integer sum (it stays an int) and total_transactions the number of
    transactions.  average_transaction is the int 0 for an empty list;
    otherwise it is the float nearest to revenue / count, ties to even,
    and when that is beyond the largest float the division raises
    OverflowError and no report is returned. *)
Theorem sales_report_integer_revenue :
  forall (sales : list dict) (zs : list Z) (store_id period : string) (w : world),
    Forall2 (fun (sale : dict) z => sale !! "amount" = Some (VInt z)) sales zs ->
    let revenue := Zsum zs in
    let count := Z.of_nat (length sales) in
    let returns (average : value) :=
      exists (report metrics : dict) (w' : world),
        generate_sales_report_body self sales store_id period w = (Ok report, w')
        /\ report !! "metrics" = Some (VDict metrics)
        /\ metrics !! "total_revenue" = Some (VInt revenue)
        /\ metrics !! "total_transactions" = Some (VInt count)
        /\ metrics !! "average_transaction" = Some average in
    match sales, nearest_float revenue count with
    | [], _ => returns (VInt 0)
    | _ :: _, S754_infinity _ =>
        generate_sales_report_body self sales store_id period w
        = (Raise (OverflowError "integer division result too large for a float"),
           after_clock_read w)
    | _ :: _, quotient => returns (of_number (number_of_float quotient))
    end.
Proof.
  intros sales zs store_id period w Hsales revenue count returns.
  assert (Hamounts : Forall2 has_amount sales (NInt <$> zs)).
  { induction Hsales as [|sale z sales zs Hz _ IH]; [constructor|].
    constructor; [by exists (VInt z)|exact IH]. }
  pose proof (sales_report_run self sales _ store_id period w Hamounts) as Hrun.
  unfold sum_numbers in Hrun. rewrite (fold_sum_step_ints zs 0), Z.add_0_l in Hrun.
  fold revenue in Hrun.
  destruct sales as [|sale sales]; [exact Hrun|].
  change (average_of (Finite (NInt revenue)) (length (sale :: sales)))
    with (result_map of_number
            (number_truediv (Finite (NInt revenue)) (Finite (NInt count)))) in Hrun.
  cbn [number_truediv] in Hrun.
  destruct (decide (count = 0)) as [H0|_]; [subst count; simpl in H0; lia|].
  destruct (nearest_float revenue count); exact Hrun.
Qed.

(** X15.  A sign-up draws one uuid, reads the clock once, and its last
    output is always the welcome line, sent whatever the persistence
    call did; a sign-up without a name is greeted as None. *)
Theorem capture_customer_effects :
  forall (customer_data : dict) (w : world),
    exists (c : dict) (w1 w' : world),
      capture_customer self customer_data w = (Ok c, w')
      /\ w' = with_line w1 (welcome_line (default VNone (customer_data !! "name")))
      /\ uuids_drawn w' = S (uuids_drawn w)
      /\ clock_reads w' = S (clock_reads w).
Proof.
  intros customer_data w.
  unfold capture_customer.
  unfold bind at 1. unfold _generate_customer_id at 1.
  unfold bind at 1. unfold datetime_now_isoformat at 1. cbn [clock_reads].
  set (customer := <["id" := _]> _).
  set (w1 := World _ _ _ _).
  assert (Hname : customer !! "name" = Some (dict_get customer_data "name" VNone)) by done.
  destruct (store_customer_returns self customer _ w1 Hname) as (w2 & Hstore & Hk & Hu).
  rewrite (bind_Ok _ _ _ _ _ Hstore).
  rewrite (bind_Ok _ _ _ _ _ (send_welcome_message_run customer _ _ Hname)).
  eexists customer, w2, _. split; [reflexivity|].
  split; [reflexivity|]. simpl. by rewrite Hk, Hu.
Qed.

(** As shipped, the three audience queries return no customer, so
    [run_marketing_campaigns] returns the three results in the order
    re-engagement, birthday, recommendation, each with target_count 0
    and a zero counter, and contacts nobody: nothing is printed and the
    tool is never called. *)
Lemma run_marketing_campaigns_as_shipped :
  forall w : world,
    run_marketing_campaigns self w
    = (Ok [ {[ "campaign" := VStr "We Miss You"; "target_count" := VInt 0;
               "messages_sent" := VInt 0; "errors" := VInt 0 ]};
            {[ "campaign" := VStr "Birthday Rewards"; "target_count" := VInt 0;
               "rewards_sent" := VInt 0 ]};
            {[ "campaign" := VStr "Personalized Recommendations";
               "target_count" := VInt 0; "recommendations_sent" := VInt 0 ]} ],
       w).
Proof. intros w. reflexivity. Qed.

(** As shipped, [predict_inventory_needs] returns the same
    predictions and reorder alerts for every store and every horizon;
    it reads the clock once, prints nothing and never calls the tool. *)
Lemma predict_inventory_needs_fixed :
  forall (store_id : string) (days_ahead : Z) (w : world),
    exists report : dict,
      predict_inventory_needs store_id days_ahead w = (Ok report, after_clock_read w)
      /\ report !! "store_id" = Some (VStr store_id)
      /\ report !! "forecast_period" = Some (VStr (pretty days_ahead ++ " days"))
      /\ report !! "predictions"
         = Some (VDict {[ "milk_tea" := VInt 150; "boba" := VInt 200;
                          "fruit" := VInt 100 ]})
      /\ report !! "reorder_alerts"
         = Some (VList [VStr "Reorder tapioca pearls"; VStr "Reorder milk powder"]).
Proof.
  intros store_id days_ahead w. eexists. split; [reflexivity|]. repeat split.
Qed.

End ReportsAndSignups.

(** ** The lines kept from a recommendation text *)

Lemma lstrip_empty_iff s : lstrip s = "" <-> blank s = true.
Proof.
  unfold blank. induction s as [|c s IH]; simpl; [done|].
  destruct (is_space c); simpl; [exact IH|]. split; discriminate.
Qed.

Lemma rstrip_empty_iff s : rstrip s = "" <-> blank s = true.
Proof.
  unfold blank. induction s as [|c s IH]; simpl; [done|].
  destruct (rstrip s) as [|c' r].
  - destruct (is_space c); simpl; [|split; discriminate].
    split; intros _; [by apply IH|done].
  - split; [discriminate|].
    intros [_ H]%andb_true_iff. by apply IH in H.
Qed.

Lemma lstrip_head s :
  lstrip s = "" \/ exists c r, lstrip s = String c r /\ is_space c = false.
Proof.
  induction s as [|c s IH]; simpl; [by left|].
  destruct (is_space c) eqn:Hc; [exact IH|]. right. by exists c, s.
Qed.

Lemma lstrip_nonspace c r : is_space c = false -> lstrip (String c r) = String c r.
Proof. intros H. simpl. by rewrite H. Qed.

Lemma rstrip_nonspace c r : is_space c = false -> rstrip (String c r) = String c (rstrip r).
Proof. intros H. simpl. destruct (rstrip r); [by rewrite H|done]. Qed.

Lemma rstrip_idem s : rstrip (rstrip s) = rstrip s.
Proof.
  induction s as [|c s IH]; simpl; [done|].
  destruct (rstrip s) as [|c' r] eqn:Hr.
  - destruct (is_space c) eqn:Hc; [done|]. simpl. by rewrite Hc.
  - change (rstrip (String c (String c' r))) with
      (match rstrip (String c' r) with
       | EmptyString => if is_space c then EmptyString else String c EmptyString
       | r0 => String c r0
       end).
    by rewrite IH.
Qed.

Lemma strip_empty_iff s : strip s = "" <-> blank s = true.
Proof.
  unfold strip. rewrite <- lstrip_empty_iff.
  destruct (lstrip_head s) as [->|(c & r & -> & Hc)]; [done|].
  by rewrite (rstrip_nonspace c r Hc).
Qed.

Lemma strip_idem s : strip (strip s) = strip s.
Proof.
  unfold strip.
  destruct (lstrip_head s) as [->|(c & r & -> & Hc)]; [done|].
  rewrite (rstrip_nonspace c r Hc), (lstrip_nonspace _ _ Hc).
  by rewrite <- (rstrip_nonspace c r Hc), rstrip_idem.
Qed.

Lemma lstrip_all p s : all_chars p s = true -> all_chars p (lstrip s) = true.
Proof.
  induction s as [|c s IH]; simpl; [done|].
  intros H. destruct (is_space c); [|exact H].
  apply andb_true_iff in H as [_ H]. by apply IH.
Qed.

Lemma rstrip_all p s : all_chars p s = true -> all_chars p (rstrip s) = true.
Proof.
  induction s as [|c s IH]; simpl; [done|].
  intros [Hc Hs]%andb_true_iff. specialize (IH Hs).
  destruct (rstrip s) as [|c' r].
  - destruct (is_space c); simpl; [done|by rewrite Hc].
  - simpl in *. by rewrite Hc, IH.
Qed.

Lemma strip_all p s : all_chars p s = true -> all_chars p (strip s) = true.
Proof. intros H. by apply rstrip_all, lstrip_all. Qed.

Lemma split_nonempty sep s : split sep s <> [].
Proof.
  destruct s as [|c s]; simpl; [done|].
  destruct (decide (c = sep)); [done|]. by destruct (split sep s).
Qed.

Lemma split_one_line_elements s :
  Forall (fun r => one_line r = true) (split newline s).
Proof.
  induction s as [|c s IH]; simpl; [by repeat constructor|].
  destruct (decide (c = newline)) as [->|Hc]; [by constructor|].
  destruct (split newline s) as [|h t]; [repeat constructor|].
  - unfold one_line. simpl. by rewrite bool_decide_eq_false_2.
  - apply Forall_cons in IH as [Hh Ht]. constructor; [|done].
    unfold one_line in *. simpl. by rewrite bool_decide_eq_false_2.
Qed.

Lemma is_space_newline : is_space newline = true.
Proof. reflexivity. Qed.

Lemma blank_split s :
  blank s = true <-> Forall (fun r => blank r = true) (split newline s).
Proof.
  induction s as [|c s IH]; simpl; [split; [by repeat constructor|done]|].
  destruct (decide (c = newline)) as [->|Hc].
  - rewrite Forall_cons, <- IH. unfold blank. simpl. tauto.
  - pose proof (split_nonempty newline s) as Hne.
    destruct (split newline s) as [|h t]; [done|].
    rewrite !Forall_cons in *. unfold blank in *. simpl.
    rewrite andb_true_iff. rewrite IH. rewrite andb_true_iff. tauto.
Qed.

Lemma blank_strip s : blank (strip s) = true <-> blank s = true.
Proof.
  split; intros H.
  - apply strip_empty_iff. rewrite <- strip_idem. by apply strip_empty_iff.
  - apply strip_empty_iff in H. by rewrite H.
Qed.

Lemma truthy_str_iff s : truthy_str s = true <-> s <> "".
Proof. by destruct s. Qed.

(** A line is kept in the form [strip r0] of a piece [r0] of the split. *)
Lemma recommendation_lines_elem text r :
  r ∈ recommendation_lines text ->
  exists r0, r = strip r0 /\ r0 ∈ split newline (strip text) /\ strip r0 <> "".
Proof.
  unfold recommendation_lines.
  intros (r0 & -> & [Hr0 Hin]%list_elem_of_filter)%list_elem_of_fmap.
  exists r0. split; [done|]. split; [exact Hin|]. by apply truthy_str_iff.
Qed.

(** X16.  Every line the recommendation call keeps from the text of the
    tool is a clean line: it is not empty, it has no whitespace at
    either end and it contains no newline. *)
Theorem recommendation_lines_are_clean :
  forall text : string, Forall clean_line (recommendation_lines text).
Proof.
  intros text. apply Forall_forall. intros r Hr.
  destruct (recommendation_lines_elem text r Hr) as (r0 & -> & Hin & Hne).
  split; [exact Hne|]. split; [apply strip_idem|].
  apply strip_all.
  pose proof (split_one_line_elements (strip text)) as Hall.
  rewrite Forall_forall in Hall. by apply Hall.
Qed.

(** X17.  The recommendation call keeps no line, so that the customer is
    skipped, exactly when the text of the tool consists of whitespace
    only (the empty text included). *)
Theorem recommendation_lines_empty_iff_blank :
  forall text : string, recommendation_lines text = [] <-> blank text = true.
Proof.
  intros text. rewrite <- blank_strip, blank_split.
  unfold recommendation_lines.
  change (Ascii.ascii_of_nat 10) with newline.
  split.
  - intros H%fmap_nil_inv. revert H.
    induction (split newline (strip text)) as [|r l IH]; [done|].
    rewrite filter_cons. case_decide as Hr; [done|].
    intros Hl. constructor; [|by apply IH].
    apply strip_empty_iff. destruct (strip r); [done|]. by destruct Hr.
  - generalize (split newline (strip text)). intros l Hall.
    induction Hall as [|r l Hr%strip_empty_iff _ IH]; [done|].
    rewrite filter_cons_False; [exact IH|]. by rewrite Hr.
Qed.

Lemma clean_line_head r :
  clean_line r -> exists c r', r = String c r' /\ is_space c = false.
Proof.
  intros (Hne & Hstrip & _). unfold strip in Hstrip.
  destruct (lstrip_head r) as [Hl|(c & x & Hl & Hc)]; rewrite Hl in Hstrip.
  - by destruct Hne.
  - rewrite (rstrip_nonspace c x Hc) in Hstrip. by exists c, (rstrip x).
Qed.

Lemma clean_line_rstrip r : clean_line r -> rstrip r = r.
Proof.
  intros Hr. destruct (clean_line_head r Hr) as (c & r' & -> & Hc).
  destruct Hr as (_ & Hstrip & _). unfold strip in Hstrip.
  by rewrite (lstrip_nonspace c r' Hc) in Hstrip.
Qed.

Lemma rstrip_app a b : rstrip b <> "" -> rstrip (a ++ b) = a ++ rstrip b.
Proof.
  intros Hb. induction a as [|c a IH]; [done|].
  change (rstrip (String c (a ++ b)) = String c (a ++ rstrip b)).
  simpl. rewrite IH. destruct (a ++ rstrip b) eqn:Happ; [|done].
  destruct a; [by destruct Hb|done].
Qed.

Lemma split_one_line r : one_line r = true -> split newline r = [r].
Proof.
  unfold one_line. induction r as [|c r IH]; simpl; [done|].
  intros [Hc Hr]%andb_true_iff. apply negb_true_iff, bool_decide_eq_false in Hc.
  destruct (decide (c = newline)); [done|]. by rewrite (IH Hr).
Qed.

Lemma split_app_newline r s :
  one_line r = true ->
  split newline (r ++ String newline s) = r :: split newline s.
Proof.
  unfold one_line. induction r as [|c r IH]; intros H.
  - simpl. by destruct (decide (newline = newline)).
  - simpl in H. apply andb_true_iff in H as [Hc Hr].
    apply negb_true_iff, bool_decide_eq_false in Hc.
    change (split newline (String c (r ++ String newline s))
            = String c r :: split newline s).
    simpl. destruct (decide (c = newline)); [done|]. by rewrite (IH Hr).
Qed.

Lemma concat_cons2 sep x y l :
  String.concat sep (x :: y :: l) = x ++ sep ++ String.concat sep (y :: l).
Proof. reflexivity. Qed.

(** Clean lines joined by newlines: the text is neither empty nor
    changed by [strip], and splitting it gives the lines back. *)
Lemma concat_clean_lines r l :
  Forall clean_line (r :: l) ->
  let text := String.concat nl (r :: l) in
  text <> "" /\ rstrip text = text
  /\ (exists c x, text = String c x /\ is_space c = false)
  /\ split newline text = r :: l.
Proof.
  revert r. induction l as [|r2 l IH]; intros r Hall; simpl.
  - apply Forall_cons in Hall as [Hr _].
    destruct (clean_line_head r Hr) as (c & r' & Hhead & Hc).
    split; [by destruct Hr|]. split; [by apply clean_line_rstrip|].
    split; [by exists c, r'|]. apply split_one_line. by destruct Hr as (_ & _ & ?).
  - apply Forall_cons in Hall as [Hr Hall].
    destruct (IH r2 Hall) as (Hne & Hrstrip & _ & Hsplit).
    destruct (clean_line_head r Hr) as (c & r' & -> & Hc).
    change (match l with
            | [] => r2
            | _ :: _ => r2 ++ nl ++ String.concat nl l
            end) with (String.concat nl (r2 :: l)) in *.
    set (b := String.concat nl (r2 :: l)) in *.
    assert (Hb : rstrip (String newline b) = String newline b).
    { simpl. rewrite Hrstrip. by destruct b. }
    split; [done|]. split.
    + change (String c r' ++ nl ++ b) with (String c r' ++ String newline b).
      rewrite rstrip_app; [by rewrite Hb|]. by rewrite Hb.
    + split; [by eexists c, _|].
      change (String c r' ++ nl ++ b) with (String c r' ++ String newline b).
      rewrite split_app_newline; [by rewrite Hsplit|].
      by destruct Hr as (_ & _ & ?).
Qed.

(** X18.  Round trip: when the text of the tool is a list of clean lines
    joined by newlines, the recommendation call returns exactly those
    lines, in order. *)
Theorem recommendation_lines_of_clean_lines :
  forall lines : list string,
    Forall clean_line lines ->
    recommendation_lines (String.concat nl lines) = lines.
Proof.
  intros [|r l] Hall; [reflexivity|].
  destruct (concat_clean_lines r l Hall) as (_ & Hrstrip & (c & x & Hhead & Hc) & Hsplit).
  unfold recommendation_lines. change (Ascii.ascii_of_nat 10) with newline.
  assert (Hstrip : strip (String.concat nl (r :: l)) = String.concat nl (r :: l)).
  { unfold strip. rewrite Hhead, (lstrip_nonspace c x Hc), <- Hhead. exact Hrstrip. }
  rewrite Hstrip, Hsplit. clear Hstrip Hsplit Hrstrip Hhead.
  induction Hall as [|r0 l0 Hr0 _ IH]; [done|].
  rewrite filter_cons_True.
  - rewrite fmap_cons, IH. f_equal. by destruct Hr0 as (_ & ? & _).
  - destruct Hr0 as (Hne & -> & _). by apply truthy_str_iff.
Qed.

(** ** The customer identifier *)








Section CustomerId.
Context {E : Env}.
Variable self : BobaBotAgent.


End CustomerId.

(** ** Concrete runs of the further properties *)

(** Two customers while the tool exits with code 1: both get the default
    text. *)
Lemma we_miss_you_counters_of_two :
  exists (results : dict) (w' : world) (sent errors : Z),
    @_run_we_miss_you_campaign_body (failing 2) __init__ [An; Binh] w0 = (Ok results, w')
    /\ results !! "target_count" = Some (VInt 2)
    /\ results !! "messages_sent" = Some (VInt sent)
    /\ results !! "errors" = Some (VInt errors)
    /\ sent + errors = 2.
Proof.
  apply (@we_miss_you_counters_add_up (failing 2) __init__ [An; Binh] w0).
  repeat constructor; eexists; reflexivity.
Defined.

(** The tool answers An's prompt with a JSON list. *)
Lemma we_miss_you_step_on_a_list :
  exists w1,
    @_run_we_miss_you_campaign_step (answers [VList []]) __init__ An
      {[ "messages_sent" := VInt 0; "errors" := VInt 0 ]} w0
    = (Ok (<["errors" := VInt 1]> {[ "messages_sent" := VInt 0; "errors" := VInt 0 ]}),
       with_line w1 "Error sending to An: 'list' object has no attribute 'get'").
Proof.
  exists_world
    (@_call_mcp_tool (answers [VList []]) __init__ "google_vertex_ai_send_prompt"
       (@personalized_params (answers [VList []]) An "we_miss_you" (VStr "An")) w0).
  refine (@we_miss_you_step_by_payload (answers [VList []]) __init__ An
            {[ "messages_sent" := VInt 0; "errors" := VInt 0 ]}
            (VStr "An") 0 0 (VList []) w0 _ _ _ _ _).
  - reflexivity.
  - reflexivity.
  - reflexivity.
  - by_running.
Defined.

(** Two birthdays: An has a favourite drink, Binh has none. *)
Lemma birthday_campaign_of_two :
  exists results : dict,
    @_run_birthday_campaign_body offline [An; Binh] w0
    = (Ok results,
       with_lines w0
         [ "Sending to An: Happy Birthday An! Enjoy a free Taro Milk Tea on us!";
           "Sending to Binh: Happy Birthday Binh! Enjoy a free Any drink on us!" ])
    /\ results !! "rewards_sent" = Some (VInt 2)
    /\ results !! "target_count" = Some (VInt 2).
Proof.
  apply (@birthday_campaign_rewards_everyone offline [An; Binh] w0).
  repeat constructor; eexists; reflexivity.
Defined.

(** A record without a name between An and Chi. *)
Lemma birthday_campaign_stops_at_nameless :
  @_run_birthday_campaign_body offline [An; nameless; Chi] w0
  = (Raise (KeyError "name"),
     with_lines w0
       [ "Sending to An: Happy Birthday An! Enjoy a free Taro Milk Tea on us!" ]).
Proof.
  apply (@birthday_campaign_aborts_without_name offline [An] nameless [Chi] w0).
  - repeat constructor; eexists; reflexivity.
  - reflexivity.
Defined.

Lemma regular_profile : profile regular 4 (NFloat 31.5) 131.
Proof.
  split; [by eexists|by eexists|reflexivity| |reflexivity].
  exists (VFloat 31.5). split; reflexivity.
Defined.

Lemma purchase_of_12_75 : purchase_of {[ "total_amount" := VFloat 12.75 ]} (NFloat 12.75).
Proof. exists (VFloat 12.75). split; reflexivity. Defined.

(** The fifth visit of a regular, for 12.75. *)
Lemma track_purchase_of_regular :
  exists (c' : dict) (w' : world),
    @track_purchase_body offline __init__ regular {[ "total_amount" := VFloat 12.75 ]} w0
    = (Ok c', w')
    /\ c' !! "total_visits" = Some (VInt 5)
    /\ c' !! "total_spent" = Some (VFloat (177 # 4))
    /\ c' !! "loyalty_points" = Some (VInt 143).
Proof.
  destruct (@track_purchase_body_updates offline __init__ regular
              {[ "total_amount" := VFloat 12.75 ]} 4 (NFloat 31.5) 131 (NFloat 12.75) w0
              regular_profile purchase_of_12_75)
    as (c' & w' & Hrun & Hvisits & Hspent & Hpoints & _).
  exists c', w'. split; [assumption|]. split; [assumption|].
  split; assumption.
Defined.

(** A purchase record that only lists the items. *)
Lemma track_purchase_of_regular_without_amount :
  @track_purchase_in_place offline __init__
    {[ "items" := VList [VStr "Taro Milk Tea"] ]} regular w0
  = (Raise (KeyError "total_amount"), <["total_visits" := VInt 5]> regular, w0).
Proof.
  apply (@track_purchase_without_amount offline __init__ regular
           {[ "items" := VList [VStr "Taro Milk Tea"] ]} 4 (NFloat 31.5) 131 w0).
  - exact regular_profile.
  - reflexivity.
Defined.

(** A purchase whose amount is the string 12.75. *)
Lemma track_purchase_of_regular_with_text_amount :
  @track_purchase_in_place offline __init__
    {[ "total_amount" := VStr "12.75" ]} regular w0
  = (Raise (TypeError "unsupported operand type(s) for +=: 'float' and 'str'"),
     <["total_visits" := VInt 5]> regular, w0).
Proof.
  apply (@track_purchase_amount_not_a_number offline __init__ regular
           {[ "total_amount" := VStr "12.75" ]} 4 (NFloat 31.5) 131 (VFloat 31.5)
           (VStr "12.75") w0).
  - exact regular_profile.
  - reflexivity.
  - reflexivity.
  - reflexivity.
Defined.

(** The fifth visit of a regular prints the notice last. *)
Lemma purchase_milestone_of_regular :
  exists (c' : dict) (w2 w' : world),
    @track_purchase_body offline __init__ regular {[ "total_amount" := VFloat 12.75 ]} w0
    = (Ok c', w')
    /\ w' = with_line w2 "Milestone! An reached 5 visits!".
Proof.
  destruct (@purchase_milestone_notice offline __init__ regular
              {[ "total_amount" := VFloat 12.75 ]} (VStr "An") 4 (NFloat 31.5) 131
              (NFloat 12.75) w0 regular_profile eq_refl purchase_of_12_75)
    as (c' & w2 & w' & Hrun & _ & Hyes & _).
  exists c', w2, w'. split; [assumption|]. apply Hyes. left. reflexivity.
Defined.

(** The tool exits with code 1 for a record without a name. *)
Lemma recommendation_step_skips_nameless :
  exists w1,
    @_run_recommendation_campaign_step (failing 1) __init__ nameless
      {[ "recommendations_sent" := VInt 0 ]} w0
    = (Ok {[ "recommendations_sent" := VInt 0 ]}, w1).
Proof.
  exists_world
    (@_call_mcp_tool (failing 1) __init__ "google_vertex_ai_send_prompt"
       (@recommendation_params (failing 1) nameless) w0).
  refine (@recommendation_step_skips_without_text (failing 1) __init__ nameless
            {[ "recommendations_sent" := VInt 0 ]}
            {[ "error" := VStr "quota exceeded" ]} w0 _ _ _).
  - by_running.
  - reflexivity.
Defined.

(** The first customer of the campaign gets a JSON list. *)
Lemma recommendation_campaign_stops_at_a_list :
  exists w2,
    @_run_recommendation_campaign_body (answers [VList []]) __init__ [An; Binh] w0
    = (Raise (AttributeError (VList []) "get"), w2).
Proof.
  exists_world
    (@_call_mcp_tool (answers [VList []]) __init__ "google_vertex_ai_send_prompt"
       (@recommendation_params (answers [VList []]) An) w0).
  refine (@recommendation_campaign_aborts_on_payload (answers [VList []]) __init__
            [] An [Binh] 0 (VList []) w0 w0 _ _ _ _).
  - constructor.
  - by_running.
  - discriminate.
Defined.

(** The tool reports a null score. *)
Lemma sentiment_with_null_score :
  exists w1,
    @analyze_customer_sentiment (answers [VDict {[ "score" := VNone ]}]) __init__
      "No opinion." w0
    = (Raise (TypeError "'<' not supported between instances of 'NoneType' and 'float'"),
       w1).
Proof.
  exists_world
    (@_call_mcp_tool (answers [VDict {[ "score" := VNone ]}]) __init__
       "google_vertex_ai_analyze_text_sentiment" (sentiment_params "No opinion.") w0).
  refine (@sentiment_score_not_a_number (answers [VDict {[ "score" := VNone ]}])
            __init__ "No opinion." {[ "score" := VNone ]} VNone w0 _ _ _ _).
  - by_running.
  - reflexivity.
  - reflexivity.
Defined.

(** The tool reports the score NaN. *)
Lemma sentiment_with_nan_score :
  exists w1,
    @analyze_customer_sentiment (answers [VDict {[ "score" := VNonFinite NotANumber ]}])
      __init__ "Hmm." w0
    = (Ok (not_escalated "neutral" (VNonFinite NotANumber)), w1).
Proof.
  exists_world
    (@_call_mcp_tool (answers [VDict {[ "score" := VNonFinite NotANumber ]}]) __init__
       "google_vertex_ai_analyze_text_sentiment" (sentiment_params "Hmm.") w0).
  refine (@sentiment_score_not_finite
            (answers [VDict {[ "score" := VNonFinite NotANumber ]}])
            __init__ "Hmm." {[ "score" := VNonFinite NotANumber ]} NotANumber w0 _ _ _).
  - by_running.
  - reflexivity.
Defined.

(** The tool answers with a bare JSON string. *)
Lemma sentiment_with_string_payload :
  exists w1,
    @analyze_customer_sentiment (answers [VStr "positive"]) __init__ "Great tea." w0
    = (Raise (AttributeError (VStr "positive") "get"), w1).
Proof.
  exists_world
    (@_call_mcp_tool (answers [VStr "positive"]) __init__
       "google_vertex_ai_analyze_text_sentiment" (sentiment_params "Great tea.") w0).
  refine (@sentiment_payload_not_a_dict (answers [VStr "positive"]) __init__
            "Great tea." (VStr "positive") w0 _ _ _).
  - by_running.
  - discriminate.
Defined.

(** A transaction without amount after one of 10. *)
Lemma sales_report_stops_at_missing_amount :
  @generate_sales_report_body offline __init__
    [ {[ "amount" := VInt 10 ]}; {[ "item" := VStr "Taro Milk Tea" ]};
      {[ "amount" := VInt 30 ]} ] "STORE-001" "daily" w0
  = (Raise (KeyError "amount"), after_clock_read w0).
Proof.
  apply (@sales_report_missing_amount offline __init__
           [ {[ "amount" := VInt 10 ]} ] [NInt 10]
           {[ "item" := VStr "Taro Milk Tea" ]} [ {[ "amount" := VInt 30 ]} ]
           "STORE-001" "daily" w0).
  - repeat constructor. exists (VInt 10). split; reflexivity.
  - reflexivity.
Defined.

(** Integer amounts 10, 20 and 35: the average is the float nearest to
    65/3, which prints as 21.666666666666668. *)
Lemma sales_report_of_integers :
  exists (report metrics : dict) (w' : world),
    @generate_sales_report_body offline __init__
      [ {[ "amount" := VInt 10 ]}; {[ "amount" := VInt 20 ]}; {[ "amount" := VInt 35 ]} ]
      "STORE-001" "daily" w0 = (Ok report, w')
    /\ report !! "metrics" = Some (VDict metrics)
    /\ metrics !! "total_revenue" = Some (VInt 65)
    /\ metrics !! "total_transactions" = Some (VInt 3)
    /\ metrics !! "average_transaction" = Some (VFloat (6098624495397547 # 2 ^ 48)).
Proof.
  apply (@sales_report_integer_revenue offline __init__
           [ {[ "amount" := VInt 10 ]}; {[ "amount" := VInt 20 ]};
             {[ "amount" := VInt 35 ]} ]
           [10; 20; 35] "STORE-001" "daily" w0).
  repeat constructor.
Defined.

(** Two drink names, one per line. *)
Lemma recommendation_lines_of_two :
  recommendation_lines ("Taro Milk Tea" ++ nl ++ "Matcha Latte")
  = ["Taro Milk Tea"; "Matcha Latte"].
Proof.
  apply (recommendation_lines_of_clean_lines ["Taro Milk Tea"; "Matcha Latte"]).
  repeat constructor; discriminate.
Defined.

